(** * ExcelFlow: the React front end, embedded and verified

    The development follows [frontend/src/App.jsx] and its three components
    ([ChatInterface], [ExcelViewer], [FileUpload]):

    - [ColumnName]: [getExcelColumnName], the while loop that names the grid's
      columns, together with the resolver's decoder;
    - [Viewer]: the column definitions and row objects [ExcelViewer] builds;
    - [Upload]: [isFileSupported] and the file handlers of [FileUpload];
    - [Client]: the state of [App] and its handlers (upload, attach, socket
      messages, chat submission) as state-passing functions that also return
      the network requests they issue;
    - [Engine]: [readRange] and [writeRange] of the spreadsheet engine.

    JavaScript numbers that the code uses as indices and counts are integers,
    modelled in [Z]; JavaScript strings are modelled by [string] (one [ascii]
    per code unit, which covers every character the code inspects). *)

From Stdlib Require Import ZArith String Ascii List Lia Bool.
From Stdlib Require PrimFloat.
From Equations Require Import Equations.
From stdpp Require Import gmap strings list fin_maps pretty.

(** ** Characters and strings *)

Definition charCode (c : ascii) : Z := Z.of_N (N_of_ascii c).

(** [String.fromCharCode]; every code the program passes lies in 65..90. *)
Definition fromCharCode (code : Z) : ascii := ascii_of_N (Z.to_N code).

Definition isUpper (c : ascii) : bool :=
  ((65 <=? charCode c) && (charCode c <=? 90))%Z.

Definition isDigit (c : ascii) : bool :=
  ((48 <=? charCode c) && (charCode c <=? 57))%Z.

Fixpoint allChars (p : ascii → bool) (s : string) : bool :=
  match s with
  | EmptyString => true
  | String c rest => p c && allChars p rest
  end.

Fixpoint hasChar (c : ascii) (s : string) : bool :=
  match s with
  | EmptyString => false
  | String d rest => if decide (c = d) then true else hasChar c rest
  end.

Definition toLowerChar (c : ascii) : ascii :=
  if isUpper c then fromCharCode (charCode c + 32) else c.

(** [String.prototype.toLowerCase], on the letters A to Z. *)
Fixpoint toLowerCase (s : string) : string :=
  match s with
  | EmptyString => EmptyString
  | String c rest => String (toLowerChar c) (toLowerCase rest)
  end.

(** [String.prototype.split] with a one-character separator: the pieces
    between the separators, never an empty array. *)
Fixpoint split (sep : ascii) (s : string) : list string :=
  match s with
  | EmptyString => [EmptyString]
  | String c rest =>
      if decide (c = sep) then EmptyString :: split sep rest
      else match split sep rest with
           | piece :: pieces => String c piece :: pieces
           | [] => [String c EmptyString]
           end
  end.

(** [Array.prototype.join]. *)
Fixpoint join (sep : string) (items : list string) : string :=
  match items with
  | [] => EmptyString
  | [item] => item
  | item :: rest => item +:+ sep +:+ join sep rest
  end.

(** ** JavaScript values

    The values that travel through the handlers: parsed JSON and cell
    contents.  Numbers are the integers; the handlers never compute with
    them. *)
#[warnings="-register-all"] Inductive jsval :=
| JUndefined
| JNull
| JBool (b : bool)
| JNum (n : Z)
| JStr (s : string)
| JArr (items : list jsval)
| JObj (props : list (string * jsval)).

(** ToBoolean, as applied by [if (v)] and [!v]. *)
Definition truthy (v : jsval) : bool :=
  match v with
  | JUndefined | JNull => false
  | JBool b => b
  | JNum n => negb (n =? 0)%Z
  | JStr s => negb (bool_decide (s = EmptyString))
  | JArr _ | JObj _ => true
  end.

(** A plain JavaScript object, seen as its own enumerable properties. *)
Abbreviation jsobject := (gmap string jsval).

(** [obj.k]: [undefined] when the object has no such property. *)
Definition getProp (obj : jsobject) (k : string) : jsval :=
  default JUndefined (obj !! k).

(** [n.toString()] on an integer. *)
Definition numberToString (n : Z) : string := pretty n.

(** [Array.from({ length }, (_, i) => f(i))]: ToLength clamps a negative
    length to zero. *)
Definition arrayFromLength {A} (length : Z) (f : Z → A) : list A :=
  (λ i : nat, f (Z.of_nat i)) <$> seq 0 (Z.to_nat length).

(** ** Column names: [getExcelColumnName] *)

Module ColumnName.

Local Open Scope Z_scope.

(** The loop of [getExcelColumnName], on its two variables.  The body runs
    while [tempIndex >= 0]; each round prepends one letter and continues with
    [Math.floor(tempIndex / 26) - 1].  For an index below 2^53 every number
    in the loop is an integer that binary64 holds and divides by 26 without
    a rounding that reaches the next integer, so [%] and
    [Math.floor(_ / 26)] are [mod] and [/] of [Z]; from 2^53 on the source's
    division rounds and the loop of [ColumnNameDouble] is the faithful
    one. *)
Equations? columnNameLoop (tempIndex : Z) (columnName : string) : string
  by wf (Z.to_nat (tempIndex + 1)) lt :=
  columnNameLoop tempIndex columnName with Z_le_gt_dec 0 tempIndex => {
    | left _ =>
        let remainder := tempIndex mod 26 in
        columnNameLoop (tempIndex / 26 - 1)
                       (String (fromCharCode (65 + remainder)) columnName);
    | right _ => columnName }.
Proof.
  assert (tempIndex / 26 ≤ tempIndex) by (apply Z.div_le_upper_bound; lia).
  lia.
Qed.

Definition getExcelColumnName (index : Z) : string := columnNameLoop index "".

(** The index at which names of [k] letters begin: 0, 26, 26 + 26², ...
    (and -1, whose name is empty, for no letters). *)
Fixpoint firstIndexOfLength (k : nat) : Z :=
  match k with
  | O => -1
  | S k' => 26 * (firstIndexOfLength k' + 1)
  end.

End ColumnName.

(** ** The error kinds of the engine and its resolver *)

(** Modelled from the spec: the error taxonomy of the core, which the front
    end does not contain. *)
Inductive error :=
| InvalidReference
| RangeOrderError
| OutOfBounds
| ShapeMismatch
| EmptyAggregate
| AgentLoopExceeded
| NotFound
| ReasoningCollaboratorFailure.

(** ** The resolver's column-name decoder *)

Module Resolver.

Local Open Scope Z_scope.

(** Modelled from the spec: the loop of the column-name decoder, which the
    front end does not contain.  It reads the letters left to right as the
    digits 1 to 26 of a bijective base-26 numeral. *)
Fixpoint decodeLoop (s : string) (acc : Z) : option Z :=
  match s with
  | EmptyString => Some acc
  | String c rest =>
      if isUpper c then decodeLoop rest (acc * 26 + (charCode c - 64))
      else None
  end.

(** Modelled from the spec: the column-name decoder of the CellAddress/Range
    resolver, the inverse of the encoding to zero-based indices.  A string
    that is not one or more capital letters fails with [InvalidReference]. *)
Definition decodeColumnName (s : string) : error + Z :=
  match s with
  | EmptyString => inl InvalidReference
  | _ => match decodeLoop s 0 with
         | Some value => inr (value - 1)
         | None => inl InvalidReference
         end
  end.

(** Modelled from the spec: the lexical pattern of a column name, one or more
    capital letters. *)
Definition validColumnName (s : string) : Prop :=
  s ≠ EmptyString ∧ allChars isUpper s = true.

End Resolver.

(** ** [ExcelViewer]: columns and rows for the data grid *)

Module Viewer.

Import ColumnName.

Record Column := {
  key : string;
  name : string;
  resizable : bool;
  sortable : bool;
  width : Z
}.

(** The one field of [metadata] the viewer reads. *)
Record Metadata := { columns : Z }.

(** The own enumerable properties of an array: its indices. *)
Definition arrayProps (row : list jsval) : jsobject :=
  list_to_map (imap (λ j cell, (numberToString (Z.of_nat j), cell)) row).

(** [{ ...target, ...source }]: a property of [source] replaces the one
    [target] has under the same name. *)
Definition spread (target source : jsobject) : jsobject := source ∪ target.

Definition columnDefinitions (metadata : Metadata) : list Column :=
  arrayFromLength (columns metadata) (λ i,
    {| key := numberToString i;
       name := getExcelColumnName i;
       resizable := true;
       sortable := true;
       width := 120 |}).

(** [data.map((row, rowIndex) => ({ id: rowIndex, ...row }))] *)
Definition formatRows (data : list (list jsval)) : list jsobject :=
  imap (λ rowIndex row,
          spread {[ "id" := JNum (Z.of_nat rowIndex) ]} (arrayProps row)) data.

Record ViewerState := {
  gridColumns : list Column;
  gridRows : list jsobject
}.

(** [useState([])] twice. *)
Definition initialViewer : ViewerState :=
  {| gridColumns := []; gridRows := [] |}.

(** The effect on [data, metadata]: nothing while either is missing. *)
Definition viewerEffect (data : option (list (list jsval)))
    (metadata : option Metadata) (st : ViewerState) : ViewerState :=
  match data, metadata with
  | Some rows, Some meta =>
      {| gridColumns := columnDefinitions meta; gridRows := formatRows rows |}
  | _, _ => st
  end.

End Viewer.

(** ** [FileUpload]: choosing the file to send *)

(** The component as the sources have it last, with [supportedFormats]; the
    earlier version among the sources takes the .xlsx media type only. *)

Module Upload.

(** The two fields of a [File] the component reads. *)
Record File := { name : string; type : string }.

(** The object literal [supportedFormats], in the order it is written. *)
Definition supportedFormats : list (string * string) :=
  [ ("application/vnd.openxmlformats-officedocument.spreadsheetml.sheet", ".xlsx");
    ("application/vnd.ms-excel", ".xls");
    ("application/vnd.oasis.opendocument.spreadsheet", ".ods");
    ("text/csv", ".csv");
    ("text/tab-separated-values", ".tsv");
    ("application/vnd.openxmlformats-officedocument.spreadsheetml.template", ".xltx");
    ("application/vnd.ms-excel.template.macroEnabled.12", ".xltm");
    ("application/vnd.ms-excel.sheet.macroEnabled.12", ".xlsm") ].

(** The list [isFileSupported] compares the extension with. *)
Definition supportedExtensions : list string :=
  ["xlsx"; "xls"; "csv"; "tsv"; "ods"; "fods"; "xlsm"; "xltx"; "xltm"].

(** The names every object literal inherits from [Object.prototype]; a
    bracket lookup under one of them finds a function (or, for [__proto__],
    the prototype itself). *)
Definition objectPrototypeNames : list string :=
  ["constructor"; "__proto__"; "hasOwnProperty"; "isPrototypeOf";
   "propertyIsEnumerable"; "toLocaleString"; "toString"; "valueOf";
   "__defineGetter__"; "__defineSetter__"; "__lookupGetter__";
   "__lookupSetter__"].

(** What [obj[k]] finds on an object literal whose values are strings. *)
Inductive property :=
| OwnValue (v : string)
| Inherited
| Missing.

Fixpoint ownProperty (obj : list (string * string)) (k : string) : option string :=
  match obj with
  | [] => None
  | (k', v) :: rest => if decide (k = k') then Some v else ownProperty rest k
  end.

Definition getProperty (obj : list (string * string)) (k : string) : property :=
  match ownProperty obj k with
  | Some v => OwnValue v
  | None => if bool_decide (k ∈ objectPrototypeNames) then Inherited else Missing
  end.

Definition truthyProperty (p : property) : bool :=
  match p with
  | OwnValue v => negb (bool_decide (v = EmptyString))
  | Inherited => true
  | Missing => false
  end.

(** [Object.values(supportedFormats).join(',')] *)
Definition acceptedExtensions : string := join "," (supportedFormats.*2).

(** [file.name.toLowerCase().split('.').pop()] *)
Definition extensionOf (fileName : string) : string :=
  List.last (split "." (toLowerCase fileName)) EmptyString.

Definition isFileSupported (file : File) : bool :=
  if truthyProperty (getProperty supportedFormats (type file)) then true
  else bool_decide (extensionOf (name file) ∈ supportedExtensions).

(** The component's own state, and what the handlers show the user. *)
Record UploadState := { selectedFile : option File }.

Inductive feedback := Alert (text : string).

Definition initialUpload : UploadState := {| selectedFile := None |}.

(** [event.target.files[0]] is absent when the chooser was cancelled. *)
Definition handleFileChange (file : option File) (st : UploadState)
    : UploadState * list feedback :=
  match file with
  | Some f =>
      if isFileSupported f then ({| selectedFile := Some f |}, [])
      else ({| selectedFile := None |},
            [Alert ("Please select a valid spreadsheet file ("
                    +:+ acceptedExtensions +:+ ")")])
  | None =>
      ({| selectedFile := None |},
       [Alert ("Please select a valid spreadsheet file ("
               +:+ acceptedExtensions +:+ ")")])
  end.

Definition handleDrop (file : option File) (st : UploadState)
    : UploadState * list feedback :=
  match file with
  | Some f =>
      if isFileSupported f then ({| selectedFile := Some f |}, [])
      else (st, [Alert ("Please drop a valid spreadsheet file ("
                        +:+ acceptedExtensions +:+ ")")])
  | None =>
      (st, [Alert ("Please drop a valid spreadsheet file ("
                   +:+ acceptedExtensions +:+ ")")])
  end.

(** [handleUpload]: the file handed to [onFileUpload], if any. *)
Definition handleUpload (st : UploadState) : option File := selectedFile st.

(** The [disabled] attribute of the upload button. *)
Definition uploadDisabled (st : UploadState) (loading : bool) : bool :=
  negb (bool_decide (is_Some (selectedFile st))) || loading.

(** [fileName], in lower case, ends in a dot and [ext]; a name without any
    dot counts when it is [ext] itself. *)
Definition hasExtension (fileName ext : string) : Prop :=
  toLowerCase fileName = ext
  ∨ ∃ stem, toLowerCase fileName = stem +:+ "." +:+ ext.

(** The [type] of a [File]: a media type, which has a slash, or the empty
    string when the browser could not tell. *)
Definition mediaTypeOrEmpty (t : string) : Prop :=
  t = EmptyString ∨ hasChar "/" t = true.

End Upload.

(** ** [App]: the client of one session *)

Module Client.

Record ExcelData := { data : jsval; metadata : jsval }.

Record ChatMessage := { role : string; content : jsval }.

(** The socket the component keeps: its address and its [readyState]. *)
Record WebSocket := { url : string; readyState : Z }.

Definition CONNECTING : Z := 0.
Definition OPEN : Z := 1.
Definition CLOSING : Z := 2.
Definition CLOSED : Z := 3.

(** The six [useState] cells of [App].  An identifier is a string, or absent
    ([null], or [undefined] when the upload response lacks the field). *)
Record AppState := {
  clientId : option string;
  excelData : option ExcelData;
  loading : bool;
  error : option string;
  socket : option WebSocket;
  messages : list ChatMessage
}.

Definition initialApp : AppState :=
  {| clientId := None; excelData := None; loading := false; error := None;
     socket := None; messages := [] |}.

Definition setClientId (v : option string) (st : AppState) : AppState :=
  {| clientId := v; excelData := excelData st; loading := loading st;
     error := error st; socket := socket st; messages := messages st |}.

Definition setExcelData (v : option ExcelData) (st : AppState) : AppState :=
  {| clientId := clientId st; excelData := v; loading := loading st;
     error := error st; socket := socket st; messages := messages st |}.

Definition setLoading (v : bool) (st : AppState) : AppState :=
  {| clientId := clientId st; excelData := excelData st; loading := v;
     error := error st; socket := socket st; messages := messages st |}.

Definition setError (v : option string) (st : AppState) : AppState :=
  {| clientId := clientId st; excelData := excelData st; loading := loading st;
     error := v; socket := socket st; messages := messages st |}.

Definition setSocket (v : option WebSocket) (st : AppState) : AppState :=
  {| clientId := clientId st; excelData := excelData st; loading := loading st;
     error := error st; socket := v; messages := messages st |}.

(** [setMessages(prev => f(prev))] *)
Definition setMessages (f : list ChatMessage → list ChatMessage)
    (st : AppState) : AppState :=
  {| clientId := clientId st; excelData := excelData st; loading := loading st;
     error := error st; socket := socket st; messages := f (messages st) |}.

(** [!clientId]: true for [null], [undefined] and the empty string. *)
Definition noClientId (st : AppState) : bool :=
  match clientId st with
  | Some id => bool_decide (id = EmptyString)
  | None => true
  end.

(** The text a template literal puts in place of [${clientId}]. *)
Definition clientIdText (st : AppState) : string :=
  default "null" (clientId st).

(** What a handler asks of the network. *)
Inductive request :=
| PostUpload (address : string) (file : Upload.File)
| OpenSocket (address : string)
| CloseSocket (address : string)
| GetExcel (address : string)
| SocketSend (payload : jsval).

Definition excelAddress (st : AppState) : string :=
  "http://localhost:8000/excel/" +:+ clientIdText st.

Definition socketAddress (st : AppState) : string :=
  "ws://localhost:8000/ws/" +:+ clientIdText st.

(** *** [fetchExcelData] *)

(** How the awaited [fetch] of the grid ends. *)
Inductive fetchOutcome :=
| FetchFailed                          (* [fetch] rejects *)
| FetchNotOk                           (* [response.ok] is false *)
| FetchBody (body : option ExcelData). (* [None]: [response.json()] rejects *)

Definition fetchExcelData_request (st : AppState) : list request :=
  [GetExcel (excelAddress st)].

Definition fetchExcelData_done (o : fetchOutcome) (st : AppState) : AppState :=
  match o with
  | FetchBody (Some body) => setExcelData (Some body) st
  | _ => setError (Some "Failed to load Excel data. Please try again.") st
  end.

(** *** [handleFileUpload] *)

Record UploadResponse := { client_id : option string }.

(** How the awaited upload ends. *)
Inductive uploadOutcome :=
| UploadFailed                                  (* [fetch] rejects *)
| UploadNotOk (status : Z) (errorText : option string)
                                                (* [response.ok] is false *)
| UploadBody (body : option UploadResponse).    (* [None]: [json()] rejects *)

(** The upload was answered: the response is ok and its body could be read. *)
Definition answered (o : uploadOutcome) : bool :=
  match o with
  | UploadBody (Some _) => true
  | _ => false
  end.

(** Up to the awaited [fetch]. *)
Definition handleFileUpload_start (file : Upload.File) (st : AppState)
    : AppState * list request :=
  (setError None (setLoading true st),
   [PostUpload "http://localhost:8000/upload" file]).

(** From the answer on: [try], [catch] and [finally]. *)
Definition handleFileUpload_done (o : uploadOutcome) (st : AppState) : AppState :=
  let st' :=
    match o with
    | UploadBody (Some body) => setClientId (client_id body) st
    | _ => setError (Some "Failed to upload file. Please try again.") st
    end in
  setLoading false st'.

Definition handleFileUpload (file : Upload.File) (o : uploadOutcome)
    (st : AppState) : AppState * list request :=
  let (st1, reqs) := handleFileUpload_start file st in
  (handleFileUpload_done o st1, reqs).

(** *** The effect on [clientId] *)

(** The effect body: nothing without an identifier; otherwise a socket is
    opened and kept, and the grid is fetched. *)
Definition attachEffect (st : AppState) : AppState * list request :=
  if noClientId st then (st, [])
  else
    let ws := {| url := socketAddress st; readyState := CONNECTING |} in
    (setSocket (Some ws) st,
     OpenSocket (socketAddress st) :: fetchExcelData_request st).

(** The effect's cleanup closes the socket it opened. *)
Definition attachCleanup (ws : WebSocket) : list request :=
  [CloseSocket (url ws)].

(** *** The socket's callbacks *)

Definition isExcelUpdate (msg : jsobject) : bool :=
  match msg !! "type" with
  | Some (JStr t) => bool_decide (t = "excel_update")
  | _ => false
  end.

(** [ws.onmessage], on the object [JSON.parse(event.data)] yields. *)
Definition onmessage (msg : jsobject) (st : AppState) : AppState * list request :=
  if isExcelUpdate msg then
    (setExcelData (Some {| data := getProp msg "data";
                           metadata := getProp msg "metadata" |}) st, [])
  else
    (setMessages (λ prev, prev ++ [{| role := "assistant";
                                      content := getProp msg "response" |}]) st,
     if truthy (getProp msg "excel_modified") then fetchExcelData_request st
     else []).

(** [ws.onerror] *)
Definition onerror (st : AppState) : AppState :=
  setError (Some "Connection error. Please try again.") st.

(** The browser moves the socket through its states; [onopen] and [onclose]
    only log. *)
Definition socketState (readyState' : Z) (st : AppState) : AppState :=
  match socket st with
  | Some ws => setSocket (Some {| url := url ws; readyState := readyState' |}) st
  | None => st
  end.

(** *** [sendMessage] *)

Definition socketOpen (st : AppState) : bool :=
  match socket st with
  | Some ws => (readyState ws =? OPEN)%Z
  | None => false
  end.

Definition sendMessage (message : string) (st : AppState)
    : AppState * list request :=
  if negb (socketOpen st) then
    (setError (Some "Connection lost. Please refresh the page.") st, [])
  else
    (setMessages (λ prev, prev ++ [{| role := "user";
                                      content := JStr message |}]) st,
     [SocketSend (JObj [("message", JStr message)])]).

(** *** What [App] renders *)

Inductive screen :=
| UploadScreen (loading : bool) (error : option string)
| MainScreen (grid : option ExcelData) (chat : list ChatMessage).

Definition render (st : AppState) : screen :=
  if noClientId st then UploadScreen (loading st) (error st)
  else MainScreen (excelData st) (messages st).

(** *** Runs of the client *)

Inductive event :=
| Upload (file : Upload.File) (o : uploadOutcome)
| Attach
| ExcelFetched (o : fetchOutcome)
| SocketState (readyState' : Z)
| SocketMessage (msg : jsobject)
| SocketError
| SendMessage (message : string).

Definition step (st : AppState) (ev : event) : AppState * list request :=
  match ev with
  | Upload file o => handleFileUpload file o st
  | Attach => attachEffect st
  | ExcelFetched o => (fetchExcelData_done o st, [])
  | SocketState r => (socketState r st, [])
  | SocketMessage msg => onmessage msg st
  | SocketError => (onerror st, [])
  | SendMessage message => sendMessage message st
  end.

(** A run threads the state through the events and collects the requests. *)
Fixpoint run (st : AppState) (evs : list event) : AppState * list request :=
  match evs with
  | [] => (st, [])
  | ev :: rest =>
      let (st1, reqs1) := step st ev in
      let (st2, reqs2) := run st1 rest in
      (st2, reqs1 ++ reqs2)
  end.

Definition isGetExcel (r : request) : bool :=
  match r with GetExcel _ => true | _ => false end.

(** The event of an upload that the server answered. *)
Definition uploadAnswered (ev : event) : bool :=
  match ev with
  | Upload _ o => answered o
  | _ => false
  end.

End Client.

(** ** The spreadsheet engine: [readRange] and [writeRange] *)

Module Engine.

(** Modelled from the spec: a cell value, one of empty, number, text and
    boolean (the back end, which holds the engine, is not among the
    sources). *)
Inductive CellValue :=
| Empty
| Number (n : Z)
| Text (s : string)
| Boolean (b : bool).

(** Modelled from the spec: a cell is a tagged value with an optional format
    hint that the mutation logic carries through. *)
Record Cell := { value : CellValue; format : option string }.

(** Modelled from the spec: the cell of an address never written. *)
Definition emptyCell : Cell := {| value := Empty; format := None |}.

(** Modelled from the spec: a zero-based (row, column) address. *)
Record CellAddress := { row : nat; column : nat }.

(** Modelled from the spec: a range, its top-left and bottom-right corners. *)
Record Range := { topLeft : CellAddress; bottomRight : CellAddress }.

(** Modelled from the spec: the sheet, a sparse container of cells with a
    declared extent. *)
Record Sheet := {
  cells : gmap (nat * nat) Cell;
  rowCount : nat;
  columnCount : nat
}.

(** Modelled from the spec: the change a mutation reports, with the session's
    sequence number. *)
Record ChangeDelta := {
  affectedRange : Range;
  newValues : list (list Cell);
  sequence : nat
}.

(** Modelled from the spec: the engine of one session, its sheet and its
    sequence counter. *)
Record SpreadsheetEngine := { sheet : Sheet; nextSequence : nat }.

(** Modelled from the spec: the number of rows of a range, whose top-left the
    resolver has put above and left of its bottom-right. *)
Definition rangeRows (r : Range) : nat :=
  S (row (bottomRight r)) - row (topLeft r).

(** Modelled from the spec: the number of columns of a range. *)
Definition rangeColumns (r : Range) : nat :=
  S (column (bottomRight r)) - column (topLeft r).

(** Modelled from the spec: a range lies within the sheet's current extent. *)
Definition withinExtent (r : Range) (s : Sheet) : bool :=
  (row (bottomRight r) <? rowCount s)
  && (column (bottomRight r) <? columnCount s).

(** Modelled from the spec: the values have exactly the range's number of
    rows, each with exactly the range's number of columns. *)
Definition shapeMatches (r : Range) (values : list (list Cell)) : bool :=
  (length values =? rangeRows r)
  && forallb (λ cellRow, length cellRow =? rangeColumns r) values.

(** Modelled from the spec: the cell at an address, empty where nothing was
    written. *)
Definition cellAt (s : Sheet) (r c : nat) : Cell :=
  default emptyCell (cells s !! (r, c)).

(** Modelled from the spec: [readRange], the grid of the cells of a range; a
    range that exceeds the current extent fails with [OutOfBounds]. *)
Definition readRange (r : Range) (s : Sheet) : error + list (list Cell) :=
  if negb (withinExtent r s) then inl OutOfBounds
  else inr ((λ i, (λ j, cellAt s (row (topLeft r) + i) (column (topLeft r) + j))
                    <$> seq 0 (rangeColumns r))
              <$> seq 0 (rangeRows r)).

(** Modelled from the spec: one row of values stored from column [c] on. *)
Fixpoint writeRow (r c : nat) (cellRow : list Cell)
    (m : gmap (nat * nat) Cell) : gmap (nat * nat) Cell :=
  match cellRow with
  | [] => m
  | v :: rest => writeRow r (S c) rest (<[(r, c) := v]> m)
  end.

(** Modelled from the spec: the rows of values stored from row [r] on. *)
Fixpoint writeRows (r c : nat) (values : list (list Cell))
    (m : gmap (nat * nat) Cell) : gmap (nat * nat) Cell :=
  match values with
  | [] => m
  | cellRow :: rest => writeRows (S r) c rest (writeRow r c cellRow m)
  end.

(** The value [writeRow] stores in column [c'], if any. *)
Definition writtenInRow (c : nat) (cellRow : list Cell) (c' : nat) : option Cell :=
  if decide (c ≤ c') then cellRow !! (c' - c) else None.

(** The value [writeRows] stores at row [r'] and column [c'], if any. *)
Definition writtenInRows (r c : nat) (values : list (list Cell))
    (r' c' : nat) : option Cell :=
  if decide (r ≤ r') then
    values !! (r' - r) ≫= λ cellRow, writtenInRow c cellRow c'
  else None.

(** Modelled from the spec: [writeRange], all or nothing.  The values must
    match the range's shape ([ShapeMismatch] otherwise); the extent grows to
    contain the range; the call reports a delta and advances the sequence
    counter. *)
Definition writeRange (r : Range) (values : list (list Cell))
    (e : SpreadsheetEngine) : error + (SpreadsheetEngine * ChangeDelta) :=
  if negb (shapeMatches r values) then inl ShapeMismatch
  else
    let s := sheet e in
    let s' := {| cells := writeRows (row (topLeft r)) (column (topLeft r))
                                    values (cells s);
                 rowCount := rowCount s `max` S (row (bottomRight r));
                 columnCount := columnCount s `max` S (column (bottomRight r)) |} in
    inr ({| sheet := s'; nextSequence := S (nextSequence e) |},
         {| affectedRange := r; newValues := values;
            sequence := nextSequence e |}).

End Engine.

(** ** [ChatInterface]: the chat panel *)

Module Chat.

Import Client.

(** The white space [String.prototype.trim] removes, among the code units a
    [string] holds: tab, line feed, vertical tab, form feed, carriage return,
    space and the no-break space. *)
Definition isWhiteSpace (c : ascii) : bool :=
  let code := charCode c in
  ((9 <=? code) && (code <=? 13) || (code =? 32) || (code =? 160))%Z.

Fixpoint trimStart (s : string) : string :=
  match s with
  | EmptyString => EmptyString
  | String c rest => if isWhiteSpace c then trimStart rest else s
  end.

Fixpoint trimEnd (s : string) : string :=
  match s with
  | EmptyString => EmptyString
  | String c rest =>
      match trimEnd rest with
      | EmptyString => if isWhiteSpace c then EmptyString else String c EmptyString
      | kept => String c kept
      end
  end.

(** [String.prototype.trim] *)
Definition trim (s : string) : string := trimEnd (trimStart s).

(** The component's own state: the text in the input field. *)
Record ChatState := { input : string }.

Definition initialChat : ChatState := {| input := EmptyString |}.

(** The input's [onChange]. *)
Definition handleChange (text : string) (st : ChatState) : ChatState :=
  {| input := text |}.

(** [handleSubmit]: the new state and what is passed to [onSendMessage]. *)
Definition handleSubmit (st : ChatState) : ChatState * option string :=
  if negb (bool_decide (trim (input st) = EmptyString))
  then ({| input := EmptyString |}, Some (input st))
  else (st, None).

(** The class of a message's [div]. *)
Definition messageClass (msg : ChatMessage) : string :=
  "message " +:+ (if bool_decide (role msg = "user") then "user-message"
                  else "assistant-message").

(** What the messages container shows. *)
Inductive transcript :=
| Placeholder (text : string)
| Bubbles (items : list (string * jsval)).

Definition renderMessages (msgs : list ChatMessage) : transcript :=
  if bool_decide (length msgs = 0) then
    Placeholder "Start chatting with the Excel Agent"
  else Bubbles ((λ msg, (messageClass msg, content msg)) <$> msgs).

(** The panel inside [App], where [onSendMessage] is [sendMessage]. *)
Definition submit (chat : ChatState) (app : AppState)
    : ChatState * AppState * list request :=
  match handleSubmit chat with
  | (chat', Some message) =>
      let (app', reqs) := sendMessage message app in (chat', app', reqs)
  | (chat', None) => (chat', app, [])
  end.

Definition isSocketSend (r : request) : bool :=
  match r with SocketSend _ => true | _ => false end.

Definition isUserTurn (msg : ChatMessage) : bool :=
  bool_decide (role msg = "user").

(** The request [sendMessage] issues for a user turn. *)
Definition sendOf (msg : ChatMessage) : request :=
  SocketSend (JObj [("message", content msg)]).

End Chat.

(** ** [FileUpload], the earlier version among the sources *)

Module UploadEarlier.

Import Upload.

Definition xlsxType : string :=
  "application/vnd.openxmlformats-officedocument.spreadsheetml.sheet".

(** The test both handlers of the earlier version apply to a file. *)
Definition isXlsx (file : File) : bool := bool_decide (type file = xlsxType).

Definition handleFileChange (file : option File) (st : UploadState)
    : UploadState * list feedback :=
  match file with
  | Some f =>
      if isXlsx f then ({| selectedFile := Some f |}, [])
      else ({| selectedFile := None |},
            [Alert "Please select a valid Excel file (.xlsx)"])
  | None =>
      ({| selectedFile := None |},
       [Alert "Please select a valid Excel file (.xlsx)"])
  end.

Definition handleDrop (file : option File) (st : UploadState)
    : UploadState * list feedback :=
  match file with
  | Some f =>
      if isXlsx f then ({| selectedFile := Some f |}, [])
      else (st, [Alert "Please drop a valid Excel file (.xlsx)"])
  | None => (st, [Alert "Please drop a valid Excel file (.xlsx)"])
  end.

End UploadEarlier.

(** ** Runs of the upload component *)

Module UploadRuns.

Import Upload.

(** What the user can do to the component's selection. *)
Inductive action :=
| Change (file : option File)
| Drop (file : option File).

Definition act (st : UploadState) (a : action) : UploadState * list feedback :=
  match a with
  | Change file => handleFileChange file st
  | Drop file => handleDrop file st
  end.

Fixpoint acts (st : UploadState) (actions : list action)
    : UploadState * list feedback :=
  match actions with
  | [] => (st, [])
  | a :: rest =>
      let (st1, alerts1) := act st a in
      let (st2, alerts2) := acts st1 rest in
      (st2, alerts1 ++ alerts2)
  end.

(** The selection is empty or a file the component supports. *)
Definition selectionSupported (st : UploadState) : Prop :=
  match selectedFile st with
  | Some f => isFileSupported f = true
  | None => True
  end.

(** The file an action offers and the handler turns down or finds missing. *)
Definition turnedDown (file : option File) : bool :=
  match file with
  | Some f => negb (isFileSupported f)
  | None => true
  end.

(** The file an action brings, if any. *)
Definition offered (a : action) : option File :=
  match a with
  | Change file => file
  | Drop file => file
  end.

End UploadRuns.

(** ** The order of column names *)

Module ColumnOrder.

(** Shorter names first; names of one length in the order of their code
    units, which is how [<] compares JavaScript strings. *)
Definition shortlexLt (s t : string) : Prop :=
  String.length s < String.length t
  ∨ (String.length s = String.length t ∧ String.compare s t = Lt).

End ColumnOrder.

(** ** What the client's runs ask for and show *)

Module ClientRuns.

Import Client.

(** The grid arrived: the response is ok and its body could be read. *)
Definition fetched (o : fetchOutcome) : bool :=
  match o with
  | FetchBody (Some _) => true
  | _ => false
  end.

(** The events by which the server hands the client a grid. *)
Definition bringsGrid (ev : event) : bool :=
  match ev with
  | ExcelFetched o => fetched o
  | SocketMessage msg => isExcelUpdate msg
  | _ => false
  end.

(** A request goes to the address of the state's session. *)
Definition targets (st : AppState) (r : request) : Prop :=
  match r with
  | GetExcel address => address = excelAddress st
  | OpenSocket address => address = socketAddress st
  | PostUpload address _ => address = "http://localhost:8000/upload"
  | _ => True
  end.

End ClientRuns.

(** ** The upload button inside [App] *)

Module UploadFlow.

Import Upload Client.

(** A click on the upload button: a disabled button does nothing; otherwise
    [handleUpload] hands the selected file to [handleFileUpload]. *)
Definition clickUpload (up : UploadState) (o : uploadOutcome) (app : AppState)
    : AppState * list request :=
  if uploadDisabled up (loading app) then (app, [])
  else match handleUpload up with
       | Some f => handleFileUpload f o app
       | None => (app, [])
       end.

(** The request posts a supported file to the upload address. *)
Definition postsSupported (r : request) : Prop :=
  match r with
  | PostUpload address f =>
      address = "http://localhost:8000/upload" ∧ isFileSupported f = true
  | _ => False
  end.

End UploadFlow.

(** ** [getExcelColumnName] in binary64 *)

Module ColumnNameDouble.

Import PrimFloat.
Local Open Scope float_scope.

(** The number of a positive integer, by doubling; exact when binary64 holds
    the integer. *)
Fixpoint numberOfPositive (p : positive) : float :=
  match p with
  | xH => 1
  | xO p' => 2 * numberOfPositive p'
  | xI p' => 2 * numberOfPositive p' + 1
  end.

Definition numberOf (z : Z) : float :=
  match z with
  | Z0 => 0
  | Zpos p => numberOfPositive p
  | Zneg p => - numberOfPositive p
  end.

Definition two52 : float := 4503599627370496.

(** [Math.floor] of a number that is not negative: below 2^52 adding and
    subtracting 2^52 rounds to a neighbouring integer, which is one too much
    when it exceeds the number; from 2^52 on every number is an integer. *)
Definition floor (q : float) : float :=
  if q <? two52 then
    let r := (q + two52) - two52 in
    if q <? r then r - 1 else r
  else q.

(** The integer an integer-valued number in [0, 2^(k+1)) holds, bit by bit
    from [pow] = 2^k down; every subtraction is exact. *)
Fixpoint integerBits (k : nat) (pow : float) (powZ : Z) (x : float) : Z :=
  match k with
  | O => if pow <=? x then powZ else 0%Z
  | S k' =>
      if pow <=? x
      then (powZ + integerBits k' (pow / 2) (powZ / 2) (x - pow))%Z
      else integerBits k' (pow / 2) (powZ / 2)%Z x
  end.

Definition integerOf (x : float) : Z :=
  integerBits 63 (numberOf (2 ^ 63)) (2 ^ 63)%Z x.

(** The loop of [getExcelColumnName] on binary64 numbers: [%] is exact,
    the division rounds to nearest, and so does the subtraction.  The fuel
    bounds the rounds. *)
Fixpoint columnNameLoop (fuel : nat) (tempIndex : float) (columnName : string)
    : option string :=
  if 0 <=? tempIndex then
    match fuel with
    | O => None
    | S fuel' =>
        let remainder := (integerOf tempIndex mod 26)%Z in
        columnNameLoop fuel' (floor (tempIndex / 26) - 1)
          (String (fromCharCode (65 + remainder)) columnName)
    end
  else Some columnName.

(** [getExcelColumnName] at an integer that binary64 holds, below 2^64;
    sixty-four rounds are more than such an index needs. *)
Definition getExcelColumnName (index : Z) : option string :=
  columnNameLoop 64 (numberOf index) EmptyString.

End ColumnNameDouble.

(** * Facts *)

(** ** Characters and strings *)

Lemma charCode_fromCharCode code :
  (0 ≤ code < 256)%Z → charCode (fromCharCode code) = code.
Proof.
  intros Hc. unfold charCode, fromCharCode.
  rewrite N_ascii_embedding; lia.
Qed.

Lemma fromCharCode_charCode c : fromCharCode (charCode c) = c.
Proof.
  unfold charCode, fromCharCode. rewrite N2Z.id. apply ascii_N_embedding.
Qed.

Lemma isUpper_range c : isUpper c = true ↔ (65 ≤ charCode c ≤ 90)%Z.
Proof. unfold isUpper. rewrite andb_true_iff, !Z.leb_le. tauto. Qed.

Lemma isUpper_not_digit c : isUpper c = true → isDigit c = false.
Proof.
  rewrite isUpper_range. unfold isDigit. intros Hc.
  apply andb_false_iff. right. apply Z.leb_gt. lia.
Qed.

Lemma string_app_nil_l (t : string) : "" +:+ t = t.
Proof. reflexivity. Qed.

Lemma string_app_cons c (s t : string) : String c s +:+ t = String c (s +:+ t).
Proof. reflexivity. Qed.

Lemma string_app_nil_r (s : string) : s +:+ "" = s.
Proof.
  induction s as [|c s IH]; [done|].
  by rewrite string_app_cons, IH.
Qed.

Lemma string_app_assoc (s t u : string) : (s +:+ t) +:+ u = s +:+ (t +:+ u).
Proof.
  induction s as [|c s IH]; [done|].
  by rewrite !string_app_cons, IH.
Qed.

Lemma string_app_length (s t : string) :
  String.length (s +:+ t) = String.length s + String.length t.
Proof.
  induction s as [|c s IH]; [done|].
  rewrite string_app_cons. simpl. by rewrite IH.
Qed.

Lemma allChars_app p s t :
  allChars p (s +:+ t) = allChars p s && allChars p t.
Proof.
  induction s as [|c s IH]; [done|].
  rewrite string_app_cons. simpl. by rewrite IH, andb_assoc.
Qed.

Lemma allChars_hasChar p c s :
  allChars p s = true → p c = false → hasChar c s = false.
Proof.
  intros Hs Hc. induction s as [|d s IH]; simpl in *; [done|].
  apply andb_true_iff in Hs as [Hd Hs].
  case_decide as Heq; [congruence | auto].
Qed.

(** ** Column names *)

Section ColumnNameFacts.

Import ColumnName Resolver.
Local Open Scope Z_scope.

Lemma columnNameLoop_done tempIndex columnName :
  tempIndex < 0 → columnNameLoop tempIndex columnName = columnName.
Proof.
  intros Hneg. rewrite columnNameLoop_equation_1. simpl.
  destruct (Z_le_gt_dec 0 tempIndex); [lia | done].
Qed.

Lemma columnNameLoop_round tempIndex columnName :
  0 ≤ tempIndex →
  columnNameLoop tempIndex columnName =
  columnNameLoop (tempIndex / 26 - 1)
    (String (fromCharCode (65 + tempIndex mod 26)) columnName).
Proof.
  intros Hpos. rewrite columnNameLoop_equation_1 at 1. simpl.
  destruct (Z_le_gt_dec 0 tempIndex); [done | lia].
Qed.

(** Induction along the loop: from [tempIndex / 26 - 1] to [tempIndex]. *)
Lemma loop_ind (P : Z → Prop) :
  (∀ t, t < 0 → P t) →
  (∀ t, 0 ≤ t → P (t / 26 - 1) → P t) →
  ∀ t, P t.
Proof.
  intros Hdone Hround t.
  assert (∀ n : nat, ∀ t, t + 1 ≤ Z.of_nat n → P t) as Hall.
  { induction n as [|n IH]; intros t' Hle.
    - apply Hdone. lia.
    - destruct (Z_le_gt_dec 0 t') as [Hge|Hlt]; [|apply Hdone; lia].
      apply Hround; [done|]. apply IH.
      assert (t' / 26 ≤ t') by (apply Z.div_le_upper_bound; lia). lia. }
  apply (Hall (Z.to_nat (t + 1))). lia.
Qed.

Lemma columnNameLoop_acc tempIndex columnName :
  columnNameLoop tempIndex columnName
  = getExcelColumnName tempIndex +:+ columnName.
Proof.
  unfold getExcelColumnName. revert columnName.
  induction tempIndex as [t Hneg | t Hpos IH] using loop_ind; intros columnName.
  - by rewrite !columnNameLoop_done.
  - rewrite (columnNameLoop_round t columnName), (columnNameLoop_round t "") by done.
    rewrite IH.
    rewrite (IH (String _ "")).
    by rewrite string_app_assoc.
Qed.

Lemma getExcelColumnName_neg index : index < 0 → getExcelColumnName index = "".
Proof. apply columnNameLoop_done. Qed.

(** The name of a column is the name of [index / 26 - 1] followed by the
    letter of [index mod 26]. *)
Lemma getExcelColumnName_snoc index :
  0 ≤ index →
  getExcelColumnName index
  = getExcelColumnName (index / 26 - 1)
    +:+ String (fromCharCode (65 + index mod 26)) "".
Proof.
  intros Hpos. unfold getExcelColumnName at 1.
  rewrite columnNameLoop_round by done. apply columnNameLoop_acc.
Qed.

Lemma getExcelColumnName_length index :
  0 ≤ index →
  String.length (getExcelColumnName index)
  = S (String.length (getExcelColumnName (index / 26 - 1))).
Proof.
  intros Hpos. rewrite getExcelColumnName_snoc by done.
  rewrite string_app_length. simpl. lia.
Qed.

Lemma getExcelColumnName_nonempty index :
  0 ≤ index → getExcelColumnName index ≠ "".
Proof.
  intros Hpos Hempty. apply (f_equal String.length) in Hempty.
  rewrite getExcelColumnName_length in Hempty by done. done.
Qed.

Lemma getExcelColumnName_upper index :
  allChars isUpper (getExcelColumnName index) = true.
Proof.
  induction index as [t Hneg | t Hpos IH] using loop_ind.
  - by rewrite getExcelColumnName_neg.
  - rewrite getExcelColumnName_snoc, allChars_app, IH by done. simpl.
    rewrite andb_true_r. apply isUpper_range.
    pose proof (Z.mod_pos_bound t 26).
    rewrite charCode_fromCharCode; lia.
Qed.

Lemma decodeLoop_app s t acc :
  decodeLoop (s +:+ t) acc = decodeLoop s acc ≫= decodeLoop t.
Proof.
  revert acc. induction s as [|c s IH]; intros acc; [done|].
  rewrite string_app_cons. simpl. destruct (isUpper c); [apply IH | done].
Qed.

(** The numeral a column's name spells is one more than its index. *)
Lemma decodeLoop_getExcelColumnName index :
  decodeLoop (getExcelColumnName index) 0 = Some (0 `max` (index + 1)).
Proof.
  induction index as [t Hneg | t Hpos IH] using loop_ind.
  - rewrite getExcelColumnName_neg by done. simpl. f_equal. lia.
  - rewrite getExcelColumnName_snoc, decodeLoop_app, IH by done. simpl.
    pose proof (Z.mod_pos_bound t 26).
    assert (isUpper (fromCharCode (65 + t mod 26)) = true) as ->.
    { apply isUpper_range. rewrite charCode_fromCharCode; lia. }
    rewrite charCode_fromCharCode by lia. f_equal.
    pose proof (Z.div_mod t 26).
    assert (0 ≤ t / 26) by (apply Z.div_pos; lia). lia.
Qed.

Lemma decodeColumnName_getExcelColumnName index :
  0 ≤ index → decodeColumnName (getExcelColumnName index) = inr index.
Proof.
  intros Hpos. unfold decodeColumnName.
  rewrite decodeLoop_getExcelColumnName.
  destruct (getExcelColumnName index) eqn:Hname.
  - by apply getExcelColumnName_nonempty in Hname.
  - f_equal. lia.
Qed.

Lemma getExcelColumnName_inj i j :
  0 ≤ i → 0 ≤ j → getExcelColumnName i = getExcelColumnName j → i = j.
Proof.
  intros Hi Hj Heq.
  apply (f_equal decodeColumnName) in Heq.
  rewrite !decodeColumnName_getExcelColumnName in Heq by done.
  congruence.
Qed.

(** Reading letters after an accumulator [acc] extends the name of
    [acc - 1] by those letters. *)
Lemma decodeLoop_spells s acc v :
  0 ≤ acc → decodeLoop s acc = Some v →
  acc ≤ v ∧ getExcelColumnName (v - 1) = getExcelColumnName (acc - 1) +:+ s.
Proof.
  revert acc. induction s as [|c s IH]; intros acc Hacc Hdec; simpl in Hdec.
  - injection Hdec as <-. by rewrite string_app_nil_r.
  - destruct (isUpper c) eqn:Hc; [|done].
    apply isUpper_range in Hc.
    apply IH in Hdec as [Hle Hname]; [|lia].
    split; [lia|]. rewrite Hname.
    rewrite (getExcelColumnName_snoc (acc * 26 + (charCode c - 64) - 1)) by lia.
    replace (acc * 26 + (charCode c - 64) - 1)
      with (charCode c - 65 + acc * 26) by lia.
    rewrite Z.div_add, Z.mod_add by lia.
    rewrite Z.div_small, Z.mod_small by lia.
    replace (65 + (charCode c - 65)) with (charCode c) by lia.
    rewrite fromCharCode_charCode, string_app_assoc.
    by replace (0 + acc - 1) with (acc - 1) by lia.
Qed.

Lemma decodeLoop_total s acc :
  allChars isUpper s = true → is_Some (decodeLoop s acc).
Proof.
  revert acc. induction s as [|c s IH]; intros acc Hs; simpl in *; [by eexists|].
  apply andb_true_iff in Hs as [-> Hs]. by apply IH.
Qed.

Lemma decodeLoop_grows s acc v :
  0 ≤ acc → s ≠ "" → decodeLoop s acc = Some v → 1 ≤ v.
Proof.
  intros Hacc Hne Hdec. destruct s as [|c s]; [done|]. simpl in Hdec.
  destruct (isUpper c) eqn:Hc; [|done]. apply isUpper_range in Hc.
  apply decodeLoop_spells in Hdec; lia.
Qed.

Lemma getExcelColumnName_decodeColumnName s :
  validColumnName s →
  ∃ index, 0 ≤ index ∧ decodeColumnName s = inr index
           ∧ getExcelColumnName index = s.
Proof.
  intros [Hne Hup].
  destruct (decodeLoop_total s 0 Hup) as [v Hv].
  exists (v - 1). split_and!.
  - apply decodeLoop_grows in Hv; [lia | lia | done].
  - unfold decodeColumnName. rewrite Hv. by destruct s.
  - apply decodeLoop_spells in Hv as [_ ->]; [|lia].
    by rewrite getExcelColumnName_neg by lia.
Qed.

(** *** The lengths of the names *)

Lemma firstIndexOfLength_lower k : -1 ≤ firstIndexOfLength k.
Proof. induction k as [|k IH]; simpl firstIndexOfLength; lia. Qed.

Lemma firstIndexOfLength_step k :
  firstIndexOfLength k < firstIndexOfLength (S k).
Proof.
  pose proof (firstIndexOfLength_lower k).
  simpl firstIndexOfLength. lia.
Qed.

Lemma firstIndexOfLength_mono j k :
  (j ≤ k)%nat → firstIndexOfLength j ≤ firstIndexOfLength k.
Proof.
  induction 1 as [|k _ IH]; [lia|].
  pose proof (firstIndexOfLength_step k). lia.
Qed.

(** In closed form: 25 * first(k) = 26^k - 26, that is,
    first(k) = 26 + 26² + ... + 26^(k-1). *)
Lemma firstIndexOfLength_closed k :
  (1 ≤ k)%nat → 25 * firstIndexOfLength k = 26 ^ Z.of_nat k - 26.
Proof.
  induction 1 as [|k Hk IH]; [done|].
  rewrite Nat2Z.inj_succ, Z.pow_succ_r by lia.
  simpl firstIndexOfLength. lia.
Qed.

(** The indices whose name has [k] letters are those from first(k) up to,
    not including, first(k + 1). *)
Lemma getExcelColumnName_length_iff k index :
  -1 ≤ index →
  String.length (getExcelColumnName index) = k
  ↔ firstIndexOfLength k ≤ index < firstIndexOfLength (S k).
Proof.
  revert index. induction k as [|k IH]; intros index Hlow.
  - change (firstIndexOfLength 1) with 0. change (firstIndexOfLength 0) with (-1).
    split.
    + intros Hlen. destruct (Z_le_gt_dec 0 index); [|lia].
      rewrite getExcelColumnName_length in Hlen by done. done.
    + intros Hi. by rewrite getExcelColumnName_neg by lia.
  - pose proof (firstIndexOfLength_lower k).
    destruct (Z_le_gt_dec 0 index) as [Hpos|Hneg].
    + rewrite getExcelColumnName_length by done.
      assert (0 ≤ index / 26) by (apply Z.div_pos; lia).
      pose proof (Z.div_mod index 26). pose proof (Z.mod_pos_bound index 26).
      specialize (IH (index / 26 - 1)).
      change (firstIndexOfLength (S (S k)))
        with (26 * (firstIndexOfLength (S k) + 1)).
      change (firstIndexOfLength (S k)) with (26 * (firstIndexOfLength k + 1)) at 1.
      split.
      * intros Hlen. injection Hlen as Hlen. apply IH in Hlen; lia.
      * intros Hi. f_equal. apply IH; lia.
    + rewrite getExcelColumnName_neg by lia. simpl String.length.
      change (firstIndexOfLength (S k)) with (26 * (firstIndexOfLength k + 1)) at 1.
      split; [done | lia].
Qed.

(** The name gets longer from [index - 1] to [index] exactly when [index] is
    the first index of some length. *)
Lemma getExcelColumnName_longer_iff index :
  0 ≤ index →
  (String.length (getExcelColumnName (index - 1))
   < String.length (getExcelColumnName index))%nat
  ↔ ∃ k, index = firstIndexOfLength k.
Proof.
  intros Hpos.
  pose proof (proj1 (getExcelColumnName_length_iff
    (String.length (getExcelColumnName index)) index ltac:(lia)) eq_refl) as Hk.
  pose proof (proj1 (getExcelColumnName_length_iff
    (String.length (getExcelColumnName (index - 1))) (index - 1) ltac:(lia))
    eq_refl) as Hj.
  set (k := String.length (getExcelColumnName index)) in *.
  set (j := String.length (getExcelColumnName (index - 1))) in *.
  split.
  - intros Hlt. exists k.
    pose proof (firstIndexOfLength_mono (S j) k ltac:(lia)). lia.
  - intros [k' Hk']. destruct (Nat.lt_ge_cases j k) as [|Hge]; [done|].
    exfalso. pose proof (firstIndexOfLength_mono k j Hge).
    destruct (Nat.le_gt_cases k' k) as [Hle|Hgt].
    + pose proof (firstIndexOfLength_mono k' k Hle). lia.
    + pose proof (firstIndexOfLength_mono (S k) k' Hgt). lia.
Qed.

(** *** The claims about column names *)

(** C1. The encoding of a zero-based column index follows the bijective
    base-26 scheme: index 0 gives "A", 25 gives "Z", 26 gives "AA", 51 gives
    "AZ" and 52 gives "BA"; in general the name of an index is the name of
    [index / 26 - 1] (empty for -1) followed by the letter number
    [index mod 26], and different indices have different names. *)
Theorem getExcelColumnName_examples :
  getExcelColumnName 0 = "A"
  ∧ getExcelColumnName 25 = "Z"
  ∧ getExcelColumnName 26 = "AA"
  ∧ getExcelColumnName 51 = "AZ"
  ∧ getExcelColumnName 52 = "BA"
  ∧ (∀ index, 0 ≤ index →
       getExcelColumnName index
       = getExcelColumnName (index / 26 - 1)
         +:+ String (fromCharCode (65 + index mod 26)) "")
  ∧ (∀ i j, 0 ≤ i → 0 ≤ j →
       getExcelColumnName i = getExcelColumnName j → i = j).
Proof.
  split_and!.
  1-5: by vm_compute.
  - apply getExcelColumnName_snoc.
  - apply getExcelColumnName_inj.
Qed.

(** C2, as the claim states its last part: the name would get longer exactly
    at the powers of 26.  At 676 = 26² it does not: 675 is "YZ" and 676 is
    "ZA". *)
Lemma length_grows_at_powers_of_26_fails :
  ¬ ((String.length (getExcelColumnName (676 - 1))
      < String.length (getExcelColumnName 676))%nat
     ↔ ∃ k : nat, 676 = 26 ^ Z.of_nat k).
Proof.
  intros [_ Hgrow].
  assert (∃ k : nat, 676 = 26 ^ Z.of_nat k) as Hpow by (by exists 2%nat).
  apply Hgrow in Hpow. vm_compute in Hpow. lia.
Qed.

(** Where the bound 2^53 in the statements about all indices comes from:
    beyond it the source's loop, which divides in binary64, leaves the exact
    one.  The twelve-letter name GYINBKQDGXDY decodes to 29273397577908248,
    which the encoder turns into GYINBKQDGXEY; four indices later it yields
    the earlier name GYINBKQDGXEC; and 99246114928149456, which precedes the
    first index of thirteen letters, gets thirteen letters. *)
Lemma double_loop_beyond_2_53 :
  2 ^ 53 ≤ 29273397577908248
  ∧ decodeColumnName "GYINBKQDGXDY" = inr 29273397577908248
  ∧ ColumnNameDouble.getExcelColumnName 29273397577908248
    = Some "GYINBKQDGXEY"
  ∧ ColumnNameDouble.getExcelColumnName 29273397577908252
    = Some "GYINBKQDGXEC"
  ∧ ColumnNameDouble.getExcelColumnName 99246114928149456
    = Some "AAAAAAAAAAAAU"
  ∧ 99246114928149456 < firstIndexOfLength 13.
Proof. split_and!; by vm_compute. Qed.

(** The name of an index, read off a string that decodes to it. *)
Lemma getExcelColumnName_of_decoded s index :
  validColumnName s → decodeColumnName s = inr index →
  getExcelColumnName index = s.
Proof.
  intros Hvalid Hdec.
  destruct (getExcelColumnName_decodeColumnName s Hvalid)
    as (j & _ & Hj & Hname).
  congruence.
Qed.

(** Below 2^53 the two loops give the same names, here at sample indices and
    at the largest one. *)
Lemma double_loop_agrees_on_samples :
  Forall (λ index, ColumnNameDouble.getExcelColumnName index
                   = Some (getExcelColumnName index))
    [0; 25; 26; 51; 52; 675; 676; 701; 702; 9999; 16383; 18277; 18278]
  ∧ ColumnNameDouble.getExcelColumnName (2 ^ 53 - 1)
    = Some (getExcelColumnName (2 ^ 53 - 1)).
Proof.
  split.
  - repeat (constructor; [by vm_compute|]). constructor.
  - rewrite (getExcelColumnName_of_decoded "BKTXHSOGHKKF").
    + by vm_compute.
    + split; [discriminate | reflexivity].
    + by vm_compute.
Qed.

(** C2, amended.  Decoding inverts encoding on every index in [0, 10000)
    (on every index below 2^53), encoding inverts decoding on every valid
    column name whose index is below 2^53, and for these indices the name
    gets longer from [index - 1] to [index] exactly when [index] is one of
    26, 26 + 26², 26 + 26² + 26³, ..., the first indices of the lengths 2, 3,
    4, ...: 25 is the one-letter "Z" and 26 the two-letter "AA". *)
Theorem column_name_round_trip (index : Z) (s : string) :
  0 ≤ index < 2 ^ 53 → validColumnName s →
  decodeColumnName (getExcelColumnName index) = inr index
  ∧ (∃ j, 0 ≤ j ∧ decodeColumnName s = inr j
          ∧ (j < 2 ^ 53 → getExcelColumnName j = s))
  ∧ (1 ≤ index →
     ((String.length (getExcelColumnName (index - 1))
       < String.length (getExcelColumnName index))%nat
      ↔ ∃ k, (2 ≤ k)%nat ∧ index = firstIndexOfLength k
             ∧ 25 * index = 26 ^ Z.of_nat k - 26))
  ∧ getExcelColumnName 25 = "Z" ∧ getExcelColumnName 26 = "AA".
Proof.
  intros [Hpos Hbound] Hvalid. split_and!.
  - by apply decodeColumnName_getExcelColumnName.
  - destruct (getExcelColumnName_decodeColumnName s Hvalid)
      as (j & Hj & Hdec & Hname).
    by exists j.
  - intros Hone. rewrite getExcelColumnName_longer_iff by done. split.
    + intros [k ->]. exists k.
      assert (2 ≤ k)%nat as Hk.
      { destruct k as [|[|k]]; [simpl in Hone; lia.. | lia]. }
      split_and!; [done | done |]. apply firstIndexOfLength_closed. lia.
    + intros (k & _ & -> & _). by exists k.
  - by vm_compute.
  - by vm_compute.
Qed.

Lemma column_name_round_trip_witness :
  0 ≤ 702 < 2 ^ 53 ∧ validColumnName "AAA"
  ∧ decodeColumnName (getExcelColumnName 702) = inr 702
  ∧ (∃ j, 0 ≤ j ∧ decodeColumnName "AAA" = inr j
          ∧ (j < 2 ^ 53 → getExcelColumnName j = "AAA")).
Proof.
  assert (0 ≤ 702 < 2 ^ 53) as Hpos by lia.
  assert (validColumnName "AAA") as Hvalid by (split; [discriminate | reflexivity]).
  destruct (column_name_round_trip 702 "AAA" Hpos Hvalid) as (Hdec & Henc & _).
  exact (conj Hpos (conj Hvalid (conj Hdec Henc))).
Defined.

(** C5. The encoder has no name for index -1 and never writes a digit: for
    every index from 0 on the name is not empty and consists of capital
    letters only, so it holds no digit and is not "A0", and it differs from
    what the encoder yields for -1, the empty string. *)
Theorem column_name_letters_only (index : Z) :
  0 ≤ index →
  getExcelColumnName index ≠ ""
  ∧ allChars isUpper (getExcelColumnName index) = true
  ∧ (∀ c, isDigit c = true → hasChar c (getExcelColumnName index) = false)
  ∧ getExcelColumnName index ≠ "A0"
  ∧ getExcelColumnName (-1) = ""
  ∧ getExcelColumnName index ≠ getExcelColumnName (-1).
Proof.
  intros Hpos.
  pose proof (getExcelColumnName_upper index) as Hup.
  pose proof (getExcelColumnName_nonempty index Hpos) as Hne.
  split_and!; [done | done | | | done | done].
  - intros c Hc. apply (allChars_hasChar isUpper); [done|].
    destruct (isUpper c) eqn:Hu; [|done].
    apply isUpper_not_digit in Hu. congruence.
  - intros Heq. rewrite Heq in Hup. done.
Qed.

Lemma column_name_letters_only_witness :
  0 ≤ 52
  ∧ getExcelColumnName 52 ≠ ""
  ∧ allChars isUpper (getExcelColumnName 52) = true
  ∧ getExcelColumnName 52 ≠ getExcelColumnName (-1).
Proof.
  assert (0 ≤ 52) as Hpos by lia.
  destruct (column_name_letters_only 52 Hpos) as (Hne & Hup & _ & _ & _ & Hm).
  exact (conj Hpos (conj Hne (conj Hup Hm))).
Defined.

End ColumnNameFacts.

(** ** The viewer's columns and rows *)

Section ViewerFacts.

Import ColumnName Viewer.

Lemma pretty_N_go_digits x s :
  allChars isDigit s = true → allChars isDigit (pretty_N_go x s) = true.
Proof.
  revert s. induction (N.lt_wf_0 x) as [x _ IH]; intros s Hs.
  destruct (decide (x = 0)%N) as [->|Hx]; [by rewrite pretty_N_go_0|].
  rewrite pretty_N_go_step by lia.
  apply IH; [apply N.div_lt; lia|].
  simpl. rewrite Hs, andb_true_r.
  unfold pretty_N_char. by repeat case_match.
Qed.

(** The decimal numeral of an index has digits only. *)
Lemma numberToString_digits n :
  (0 ≤ n)%Z → allChars isDigit (numberToString n) = true.
Proof.
  intros Hn. unfold numberToString, pretty, pretty_Z.
  destruct n as [|p|p]; [done | | lia].
  unfold pretty, pretty_positive, pretty, pretty_N.
  case_decide; [done|]. by apply pretty_N_go_digits.
Qed.


Lemma numberToString_of_nat_inj (i j : nat) :
  numberToString (Z.of_nat i) = numberToString (Z.of_nat j) → i = j.
Proof.
  unfold numberToString. intros Heq%(inj pretty). lia.
Qed.

Lemma arrayProps_keys (row : list jsval) :
  (imap (λ j cell, (numberToString (Z.of_nat j), cell)) row).*1
  = (λ j, numberToString (Z.of_nat j)) <$> seq 0 (length row).
Proof.
  rewrite fmap_imap.
  apply (imap_seq_0 row (λ j, numberToString (Z.of_nat j))).
Qed.

(** An array's cells are the properties under its indices. *)
Lemma arrayProps_lookup row (j : nat) :
  arrayProps row !! numberToString (Z.of_nat j) = row !! j.
Proof.
  unfold arrayProps.
  destruct (row !! j) as [cell|] eqn:Hj.
  - apply elem_of_list_to_map_1.
    + rewrite arrayProps_keys. apply NoDup_fmap_2_strong; [|apply NoDup_seq].
      intros i i' _ _. apply numberToString_of_nat_inj.
    + by apply (elem_of_lookup_imap_2
        (λ j cell, (numberToString (Z.of_nat j), cell)) row cell j).
  - apply not_elem_of_list_to_map_1. rewrite arrayProps_keys.
    intros (i & Heq & Hi)%list_elem_of_fmap.
    apply numberToString_of_nat_inj in Heq as <-.
    apply elem_of_seq in Hi. apply lookup_ge_None in Hj. lia.
Qed.


Lemma formatRows_lookup data (rowIndex : nat) :
  formatRows data !! rowIndex
  = (λ row, spread {[ "id" := JNum (Z.of_nat rowIndex) ]} (arrayProps row))
      <$> data !! rowIndex.
Proof. unfold formatRows. apply list_lookup_imap. Qed.


End ViewerFacts.

(** ** The upload component *)

Section UploadFacts.

Import Upload.

Lemma split_nonempty sep s : split sep s ≠ [].
Proof.
  destruct s as [|c s]; simpl; [done|].
  case_decide; [done|]. by destruct (split sep s).
Qed.

Lemma split_no_separator sep s : hasChar sep s = false → split sep s = [s].
Proof.
  induction s as [|c s IH]; simpl; [done|].
  destruct (decide (sep = c)) as [->|Hne]; [done|]. intros Hs.
  rewrite decide_False by done. by rewrite IH.
Qed.

Lemma split_app_separator sep stem rest :
  split sep (stem +:+ String sep rest) = split sep stem ++ split sep rest.
Proof.
  induction stem as [|c stem IH].
  - rewrite string_app_nil_l. simpl. by rewrite decide_True.
  - rewrite string_app_cons. simpl. rewrite IH.
    case_decide; [done|].
    pose proof (split_nonempty sep stem).
    by destruct (split sep stem).
Qed.

Lemma last_app_nonempty {A} (l1 l2 : list A) d :
  l2 ≠ [] → List.last (l1 ++ l2) d = List.last l2 d.
Proof.
  intros Hne. induction l1 as [|x l1 IH]; [done|].
  simpl. rewrite IH. destruct (l1 ++ l2) eqn:Happ; [|done].
  by apply app_eq_nil in Happ as [_ ?].
Qed.

(** A string has no separator, or splits at its last one. *)
Lemma last_separator sep s :
  hasChar sep s = false
  ∨ ∃ stem rest, s = stem +:+ String sep rest ∧ hasChar sep rest = false.
Proof.
  induction s as [|c s IH]; [by left|].
  destruct IH as [Hs | (stem & rest & -> & Hrest)].
  - simpl. destruct (decide (sep = c)) as [->|Hne]; [|by left].
    right. by exists "", s.
  - right. by exists (String c stem), rest.
Qed.

(** The last piece of a split is [ext] exactly for the strings that are
    [ext] or end in the separator followed by [ext]. *)
Lemma last_split_iff sep s ext :
  hasChar sep ext = false →
  List.last (split sep s) "" = ext
  ↔ s = ext ∨ ∃ stem, s = stem +:+ String sep ext.
Proof.
  intros Hext. split.
  - intros Hlast.
    destruct (last_separator sep s) as [Hs | (stem & rest & -> & Hrest)].
    + rewrite split_no_separator in Hlast by done. by left.
    + rewrite split_app_separator, last_app_nonempty in Hlast
        by apply split_nonempty.
      rewrite split_no_separator in Hlast by done.
      simpl in Hlast. subst rest. right. by exists stem.
  - intros [-> | [stem ->]].
    + by rewrite split_no_separator.
    + rewrite split_app_separator, last_app_nonempty by apply split_nonempty.
      by rewrite split_no_separator.
Qed.

Lemma extensionOf_iff fileName ext :
  ext ∈ supportedExtensions →
  extensionOf fileName = ext ↔ hasExtension fileName ext.
Proof.
  intros Hin. unfold extensionOf, hasExtension.
  apply last_split_iff.
  assert (Forall (λ e, hasChar "." e = false) supportedExtensions) as Hall
    by (repeat constructor).
  by apply (proj1 (Forall_forall _ _) Hall).
Qed.

Lemma ownProperty_Some obj k v : ownProperty obj k = Some v → (k, v) ∈ obj.
Proof.
  induction obj as [|[k' v'] obj IH]; simpl; [done|].
  case_decide as Hk; [intros [= ->]; subst; left | intros; right; auto].
Qed.

Lemma ownProperty_None obj k : ownProperty obj k = None ↔ k ∉ obj.*1.
Proof.
  induction obj as [|[k' v'] obj IH]; simpl.
  - split; [intros _; apply not_elem_of_nil | done].
  - rewrite not_elem_of_cons. case_decide as Hk; [|tauto].
    split; [done | tauto].
Qed.

(** A bracket lookup on [supportedFormats] is truthy for its eight keys and
    for the names inherited from [Object.prototype]. *)
Lemma supportedFormats_lookup_truthy t :
  truthyProperty (getProperty supportedFormats t) = true
  ↔ t ∈ supportedFormats.*1 ∨ t ∈ objectPrototypeNames.
Proof.
  unfold getProperty.
  destruct (ownProperty supportedFormats t) as [v|] eqn:Hown.
  - pose proof (ownProperty_Some _ _ _ Hown) as Hin.
    assert (Forall (λ kv : string * string, kv.2 ≠ "") supportedFormats) as Hall
      by (repeat constructor; done).
    pose proof (proj1 (Forall_forall _ _) Hall _ Hin) as Hv. simpl in Hv.
    simpl. rewrite bool_decide_false by done. split; [|done]. intros _. left.
    by apply (list_elem_of_fmap_2 fst) in Hin.
  - apply ownProperty_None in Hown. simpl.
    case_bool_decide as Hproto; simpl; [tauto|].
    split; [done | tauto].
Qed.

Lemma mediaType_not_inherited t :
  mediaTypeOrEmpty t → t ∉ objectPrototypeNames.
Proof.
  intros Hmedia Hin.
  assert (Forall (λ n, n ≠ "" ∧ hasChar "/" n = false) objectPrototypeNames)
    as Hall by (repeat constructor; done).
  destruct (proj1 (Forall_forall _ _) Hall _ Hin) as [Hne Hslash].
  destruct Hmedia; congruence.
Qed.

(** Without any assumption on the type string. *)
Lemma isFileSupported_iff file :
  isFileSupported file = true
  ↔ type file ∈ supportedFormats.*1
    ∨ type file ∈ objectPrototypeNames
    ∨ ∃ ext, ext ∈ supportedExtensions ∧ hasExtension (name file) ext.
Proof.
  unfold isFileSupported.
  destruct (truthyProperty _) eqn:Htruthy.
  - apply supportedFormats_lookup_truthy in Htruthy. tauto.
  - rewrite bool_decide_eq_true.
    assert (¬ (type file ∈ supportedFormats.*1
               ∨ type file ∈ objectPrototypeNames)) as Hno.
    { rewrite <- supportedFormats_lookup_truthy. congruence. }
    split.
    + intros Hin. right. right. exists (extensionOf (name file)).
      split; [done|]. by apply extensionOf_iff.
    + intros [? | [? | (ext & Hin & Hext)]]; [tauto.. |].
      apply extensionOf_iff in Hext; [|done]. by rewrite Hext.
Qed.

Example isFileSupported_by_type :
  isFileSupported {| name := "export"; type := "text/csv" |} = true.
Proof. reflexivity. Qed.

Example isFileSupported_by_extension :
  isFileSupported {| name := "Budget.2024.ODS"; type := "" |} = true.
Proof. reflexivity. Qed.

Example isFileSupported_plain_text :
  isFileSupported {| name := "notes.txt"; type := "text/plain" |} = false.
Proof. reflexivity. Qed.

(** A name without a dot is its own last piece. *)
Example isFileSupported_bare_name :
  isFileSupported {| name := "csv"; type := "" |} = true.
Proof. reflexivity. Qed.

(** A type string that is no media type can hit an inherited name. *)
Example isFileSupported_inherited_name :
  isFileSupported {| name := "notes.txt"; type := "constructor" |} = true.
Proof. reflexivity. Qed.

(** What a drop does with a file it turns down: it alerts and keeps the
    selection as it was, unlike the chooser's change handler. *)
Lemma handleDrop_rejected file st :
  isFileSupported file = false →
  (handleDrop (Some file) st).1 = st.
Proof. intros Hno. unfold handleDrop. by rewrite Hno. Qed.

Lemma handleDrop_accepted file st :
  isFileSupported file = true →
  selectedFile (handleDrop (Some file) st).1 = Some file.
Proof. intros Hyes. unfold handleDrop. by rewrite Hyes. Qed.

(** C10, as the claim states it, fails twice.  A rejected file does not
    always clear the prior selection: with q1.csv selected, dropping
    notes.txt leaves q1.csv selected and the upload button enabled.  And the
    acceptance is not exactly by declared type or listed extension: a file
    notes.txt whose type string is "constructor", a name every object
    literal inherits, is accepted. *)
Lemma upload_claim_fails_on_drop_and_type :
  ¬ (isFileSupported {| name := "notes.txt"; type := "text/plain" |} = false →
     selectedFile
       (handleDrop (Some {| name := "notes.txt"; type := "text/plain" |})
          {| selectedFile := Some {| name := "q1.csv"; type := "text/csv" |} |}).1
     = None
     ∧ uploadDisabled
         (handleDrop (Some {| name := "notes.txt"; type := "text/plain" |})
            {| selectedFile :=
                 Some {| name := "q1.csv"; type := "text/csv" |} |}).1 false
       = true)
  ∧ ¬ (isFileSupported {| name := "notes.txt"; type := "constructor" |} = true
       ↔ "constructor" ∈ supportedFormats.*1
         ∨ ∃ ext, ext ∈ supportedExtensions ∧ hasExtension "notes.txt" ext).
Proof.
  split.
  - intros Hclaim. by destruct (Hclaim eq_refl) as [Hsel _].
  - intros [Hclaim _]. destruct (Hclaim eq_refl) as [Hin | (ext & Hin & Hext)].
    + apply list_elem_of_In in Hin. simpl in Hin. intuition discriminate.
    + apply extensionOf_iff in Hext; [|done].
      assert (extensionOf "notes.txt" = "txt") as Htxt by reflexivity.
      rewrite <- Hext, Htxt in Hin.
      apply list_elem_of_In in Hin. simpl in Hin. intuition discriminate.
Qed.

(** C10, amended.  For a file whose type is a media type or empty, as a
    browser reports it, the upload component takes the file exactly when its
    media type is one of the declared spreadsheet types or, failing that, the
    extension of its lower-cased name is one of xlsx, xls, csv, tsv, ods, fods,
    xlsm, xltx and xltm; a file it takes becomes the selection (from the
    chooser and from a drop); for one it turns down the chooser's change
    handler clears the selection, which disables the upload button, while a
    drop leaves the selection as it was. *)
Theorem upload_accepts_supported_files (file : File) (st : UploadState)
    (loading : bool) :
  mediaTypeOrEmpty (type file) →
  (isFileSupported file = true
   ↔ type file ∈ supportedFormats.*1
     ∨ ∃ ext, ext ∈ supportedExtensions ∧ hasExtension (name file) ext)
  ∧ (isFileSupported file = true →
     selectedFile (handleFileChange (Some file) st).1 = Some file
     ∧ handleUpload (handleFileChange (Some file) st).1 = Some file
     ∧ selectedFile (handleDrop (Some file) st).1 = Some file)
  ∧ (isFileSupported file = false →
     selectedFile (handleFileChange (Some file) st).1 = None
     ∧ handleUpload (handleFileChange (Some file) st).1 = None
     ∧ uploadDisabled (handleFileChange (Some file) st).1 loading = true)
  ∧ (isFileSupported file = false →
     (handleDrop (Some file) st).1 = st
     ∧ uploadDisabled (handleDrop (Some file) st).1 loading
       = uploadDisabled st loading).
Proof.
  intros Hmedia. apply mediaType_not_inherited in Hmedia. split_and!.
  - rewrite isFileSupported_iff. tauto.
  - intros Hyes. unfold handleFileChange, handleDrop. by rewrite Hyes.
  - intros Hno. unfold handleFileChange. by rewrite Hno.
  - intros Hno. unfold handleDrop. by rewrite Hno.
Qed.

Lemma upload_accepts_supported_files_witness :
  mediaTypeOrEmpty "text/plain"
  ∧ isFileSupported {| name := "Report.final.XLSX"; type := "text/plain" |} = true
  ∧ selectedFile
      (handleFileChange
         (Some {| name := "Report.final.XLSX"; type := "text/plain" |})
         initialUpload).1
    = Some {| name := "Report.final.XLSX"; type := "text/plain" |}.
Proof.
  assert (mediaTypeOrEmpty "text/plain") as Hmedia by (right; reflexivity).
  destruct (upload_accepts_supported_files
              {| name := "Report.final.XLSX"; type := "text/plain" |}
              initialUpload false Hmedia) as (_ & Hyes & _).
  assert (isFileSupported {| name := "Report.final.XLSX"; type := "text/plain" |}
          = true) as Hsup by reflexivity.
  exact (conj Hmedia (conj Hsup (proj1 (Hyes Hsup)))).
Defined.

End UploadFacts.

(** ** The client *)

Section ClientFacts.

Import Client.

Lemma isExcelUpdate_iff msg :
  isExcelUpdate msg = true ↔ msg !! "type" = Some (JStr "excel_update").
Proof.
  unfold isExcelUpdate.
  destruct (msg !! "type") as [[| | | |t| |]|]; try by split.
  rewrite bool_decide_eq_true. split; [by intros -> | by intros [= ->]].
Qed.

(** The requests of a step that ask for the grid: the attach effect, and a
    socket message that is not an update and says the sheet was modified. *)
Lemma step_GetExcel st ev :
  filter isGetExcel (step st ev).2 ≠ [] →
  (ev = Attach ∧ noClientId st = false)
  ∨ ∃ msg, ev = SocketMessage msg ∧ isExcelUpdate msg = false
           ∧ truthy (getProp msg "excel_modified") = true.
Proof.
  destruct ev as [file o| |o|r|msg| |message]; simpl; try done.
  - unfold attachEffect. destruct (noClientId st); [done | intros _; by left].
  - unfold onmessage. destruct (isExcelUpdate msg) eqn:Hkind; [done|].
    destruct (truthy _) eqn:Hmod; [|done]. intros _. right. by exists msg.
  - unfold sendMessage. by destruct (negb _).
Qed.

(** The one step that changes the session identifier. *)
Lemma step_clientId st ev :
  clientId (step st ev).1 ≠ clientId st →
  ∃ file body, ev = Upload file (UploadBody (Some body))
               ∧ clientId (step st ev).1 = client_id body.
Proof.
  destruct ev as [file o| |o|r|msg| |message]; simpl.
  - destruct o as [| |[body|]]; simpl; try done. intros _. by exists file, body.
  - unfold attachEffect. by destruct (noClientId st).
  - by destruct o as [| |[body|]].
  - unfold socketState. by destruct (socket st).
  - unfold onmessage. by destruct (isExcelUpdate msg).
  - done.
  - unfold sendMessage. by destruct (negb _).
Qed.

(** Along a run without an answered upload the identifier stays as it is. *)
Lemma run_clientId st evs :
  Forall (λ ev, uploadAnswered ev = false) evs →
  clientId (run st evs).1 = clientId st.
Proof.
  revert st. induction evs as [|ev evs IH]; intros st Hall; [done|].
  apply Forall_cons in Hall as [Hev Hall]. simpl.
  pose proof (step_clientId st ev) as Hstep.
  destruct (step st ev) as [st1 reqs1]. specialize (IH st1 Hall).
  destruct (run st1 evs) as [st2 reqs2]. simpl in *. rewrite IH.
  destruct (decide (clientId st1 = clientId st)) as [|Hne]; [done|].
  destruct (Hstep Hne) as (file & body & -> & _). done.
Qed.

(** C3. A pushed message is of exactly one of two kinds, and the client
    treats it by its kind: an update (type "excel_update") replaces the grid
    state by the message's data and metadata and leaves the conversation
    alone; any other message is appended to the conversation as an assistant
    message carrying the reply's text, and leaves the grid state alone. *)
Theorem onmessage_by_kind (msg : jsobject) (st : AppState) :
  (isExcelUpdate msg = true
   ∧ msg !! "type" = Some (JStr "excel_update")
   ∧ excelData (onmessage msg st).1
     = Some {| data := getProp msg "data"; metadata := getProp msg "metadata" |}
   ∧ messages (onmessage msg st).1 = messages st)
  ∨ (isExcelUpdate msg = false
     ∧ msg !! "type" ≠ Some (JStr "excel_update")
     ∧ messages (onmessage msg st).1
       = messages st ++ [{| role := "assistant";
                            content := getProp msg "response" |}]
     ∧ excelData (onmessage msg st).1 = excelData st).
Proof.
  unfold onmessage. destruct (isExcelUpdate msg) eqn:Hkind.
  - left. by apply isExcelUpdate_iff in Hkind.
  - right. split_and!; try done.
    rewrite <- isExcelUpdate_iff. congruence.
Qed.

(** C6. On attaching (the client has its identifier and the effect opens the
    connection) the client asks for the grid exactly once, as a snapshot that
    replaces its grid state when it arrives; the effect issues nothing else
    but the opening of the socket, so nothing missed before is replayed. *)
Theorem attach_fetches_one_snapshot (st : AppState) (body : ExcelData) :
  noClientId st = false →
  ∃ id, clientId st = Some id
    ∧ (attachEffect st).2
      = [OpenSocket ("ws://localhost:8000/ws/" +:+ id);
         GetExcel ("http://localhost:8000/excel/" +:+ id)]
    ∧ length (filter isGetExcel (attachEffect st).2) = 1
    ∧ excelData (attachEffect st).1 = excelData st
    ∧ excelData (fetchExcelData_done (FetchBody (Some body)) (attachEffect st).1)
      = Some body.
Proof.
  intros Hid. unfold attachEffect. rewrite Hid.
  unfold noClientId in Hid.
  destruct (clientId st) as [id|] eqn:Hc; [|done].
  exists id. unfold fetchExcelData_request, excelAddress, socketAddress,
    clientIdText. rewrite Hc. by split_and!.
Qed.

Lemma attach_fetches_one_snapshot_witness :
  noClientId (setClientId (Some "c1") initialApp) = false
  ∧ ∃ id, clientId (setClientId (Some "c1") initialApp) = Some id
      ∧ (attachEffect (setClientId (Some "c1") initialApp)).2
        = [OpenSocket ("ws://localhost:8000/ws/" +:+ id);
           GetExcel ("http://localhost:8000/excel/" +:+ id)].
Proof.
  assert (noClientId (setClientId (Some "c1") initialApp) = false) as Hid
    by reflexivity.
  destruct (attach_fetches_one_snapshot (setClientId (Some "c1") initialApp)
              {| data := JArr []; metadata := JNull |} Hid)
    as (id & Hc & Hreqs & _).
  exact (conj Hid (ex_intro _ id (conj Hc Hreqs))).
Defined.

(** C7. The client gets its session identifier only from a successful upload
    response.  After an upload whose request throws or whose response is not
    ok (or cannot be read) the identifier is as before, so a client without
    one stays on the upload screen, and the error is reported there; and no
    step of the client other than an upload answered with a body changes the
    identifier. *)
Theorem session_id_only_from_upload (file : Upload.File) (o : uploadOutcome)
    (st : AppState) :
  answered o = false →
  noClientId st = true →
  clientId (handleFileUpload file o st).1 = clientId st
  ∧ noClientId (handleFileUpload file o st).1 = true
  ∧ error (handleFileUpload file o st).1
    = Some "Failed to upload file. Please try again."
  ∧ loading (handleFileUpload file o st).1 = false
  ∧ render (handleFileUpload file o st).1
    = UploadScreen false (Some "Failed to upload file. Please try again.")
  ∧ (∀ st0 ev, clientId (step st0 ev).1 ≠ clientId st0 →
      ∃ file0 body, ev = Upload file0 (UploadBody (Some body))
                    ∧ clientId (step st0 ev).1 = client_id body)
  ∧ (∀ st0 evs, Forall (λ ev, uploadAnswered ev = false) evs →
      clientId (run st0 evs).1 = clientId st0).
Proof.
  intros Hfail Hnone.
  assert (handleFileUpload file o st
          = (setLoading false
               (setError (Some "Failed to upload file. Please try again.")
                  (setError None (setLoading true st))),
             [PostUpload "http://localhost:8000/upload" file])) as ->.
  { by destruct o as [| |[body|]]. }
  split_and!; try done.
  - unfold render. simpl. unfold noClientId in *. simpl. by rewrite Hnone.
  - apply step_clientId.
  - apply run_clientId.
Qed.

Lemma session_id_only_from_upload_witness :
  answered (UploadNotOk 500 (Some "Internal Server Error")) = false
  ∧ noClientId initialApp = true
  ∧ clientId (handleFileUpload
                {| Upload.name := "book.xlsx"; Upload.type := "" |}
                (UploadNotOk 500 (Some "Internal Server Error")) initialApp).1
    = None.
Proof.
  assert (answered (UploadNotOk 500 (Some "Internal Server Error")) = false)
    as Hfail by reflexivity.
  assert (noClientId initialApp = true) as Hnone by reflexivity.
  destruct (session_id_only_from_upload
              {| Upload.name := "book.xlsx"; Upload.type := "" |}
              (UploadNotOk 500 (Some "Internal Server Error")) initialApp
              Hfail Hnone) as (Hid & _).
  exact (conj Hfail (conj Hnone Hid)).
Defined.

(** C8. Submitting a chat message while the socket is absent or not open only
    sets the error: the history is unchanged, no user turn is added and
    nothing is sent.  Only with an open socket is the user's message appended
    to the history and sent. *)
Theorem sendMessage_needs_open_socket (message : string) (st : AppState) :
  (socketOpen st = true
   ↔ ∃ ws, socket st = Some ws ∧ readyState ws = OPEN)
  ∧ (socketOpen st = false →
     messages (sendMessage message st).1 = messages st
     ∧ (sendMessage message st).2 = []
     ∧ (sendMessage message st).1
       = setError (Some "Connection lost. Please refresh the page.") st)
  ∧ (socketOpen st = true →
     messages (sendMessage message st).1
     = messages st ++ [{| role := "user"; content := JStr message |}]
     ∧ (sendMessage message st).2
       = [SocketSend (JObj [("message", JStr message)])]
     ∧ error (sendMessage message st).1 = error st)
  ∧ (messages (sendMessage message st).1 ≠ messages st → socketOpen st = true)
  ∧ ((sendMessage message st).2 ≠ [] → socketOpen st = true).
Proof.
  split_and!.
  - unfold socketOpen. destruct (socket st) as [ws|].
    + rewrite Z.eqb_eq. split; [by exists ws | by intros (? & [= <-] & ?)].
    + split; [done | by intros (? & ? & ?)].
  - intros Hclosed. unfold sendMessage. by rewrite Hclosed.
  - intros Hopen. unfold sendMessage. by rewrite Hopen.
  - unfold sendMessage. by destruct (socketOpen st).
  - unfold sendMessage. by destruct (socketOpen st).
Qed.

End ClientFacts.

(** ** The engine: writing a range and reading it back *)

Section EngineFacts.

Import Engine.

Lemma lookup_writeRow r c cellRow m r' c' :
  writeRow r c cellRow m !! (r', c')
  = if decide (r' = r) then
      from_option Some (m !! (r', c')) (writtenInRow c cellRow c')
    else m !! (r', c').
Proof.
  revert c m. induction cellRow as [|v rest IH]; intros c m; simpl.
  - unfold writtenInRow. by repeat case_decide.
  - rewrite IH. case_decide as Hr;
      [subst r' | apply lookup_insert_ne; congruence].
    unfold writtenInRow.
    destruct (decide (S c ≤ c')) as [Hlt|Hge].
    + rewrite decide_True by lia.
      replace (c' - c) with (S (c' - S c)) by lia. simpl.
      destruct (rest !! (c' - S c)); [done|]. simpl.
      apply lookup_insert_ne. intros [= ?]. lia.
    + simpl. destruct (decide (c ≤ c')) as [Hle|Hgt].
      * assert (c' = c) as -> by lia. rewrite Nat.sub_diag. simpl.
        apply lookup_insert_eq.
      * simpl. apply lookup_insert_ne. intros [= ?]. lia.
Qed.

Lemma lookup_writeRows r c values m r' c' :
  writeRows r c values m !! (r', c')
  = from_option Some (m !! (r', c')) (writtenInRows r c values r' c').
Proof.
  revert r m. induction values as [|cellRow rest IH]; intros r m; simpl.
  - unfold writtenInRows. by case_decide.
  - rewrite IH, lookup_writeRow. unfold writtenInRows.
    destruct (decide (S r ≤ r')) as [Hlt|Hge].
    + rewrite (decide_True (P := r ≤ r')) by lia.
      rewrite (decide_False (P := r' = r)) by lia.
      by replace (r' - r) with (S (r' - S r)) by lia.
    + simpl. destruct (decide (r ≤ r')) as [Hle|Hgt].
      * assert (r' = r) as -> by lia.
        rewrite decide_True by done. by rewrite Nat.sub_diag.
      * by rewrite decide_False by lia.
Qed.

Lemma shapeMatches_rows r values :
  shapeMatches r values = true →
  length values = rangeRows r
  ∧ ∀ i cellRow, values !! i = Some cellRow → length cellRow = rangeColumns r.
Proof.
  unfold shapeMatches. rewrite andb_true_iff, Nat.eqb_eq, forallb_forall.
  intros [Hlen Hrows]. split; [done|]. intros i cellRow Hi.
  apply Nat.eqb_eq, Hrows, list_elem_of_In. by eapply list_elem_of_lookup_2.
Qed.

(** C4. For every range and every rectangular grid of values whose shape
    matches the range's numbers of rows and columns, writing the values to
    the range succeeds, and reading the range from the resulting sheet
    returns exactly those values. *)
Theorem write_then_read (r : Range) (values : list (list Cell))
    (e : SpreadsheetEngine) :
  shapeMatches r values = true →
  ∃ e' delta, writeRange r values e = inr (e', delta)
              ∧ readRange r (sheet e') = inr values.
Proof.
  intros Hshape.
  unfold writeRange. rewrite Hshape. simpl.
  eexists _, _. split; [done|].
  unfold readRange. simpl.
  assert (withinExtent r
            {| cells := writeRows (row (topLeft r)) (column (topLeft r))
                          values (cells (sheet e));
               rowCount := rowCount (sheet e) `max` S (row (bottomRight r));
               columnCount := columnCount (sheet e)
                              `max` S (column (bottomRight r)) |} = true) as ->.
  { unfold withinExtent. simpl.
    apply andb_true_iff. split; apply Nat.ltb_lt; lia. }
  simpl. f_equal.
  apply shapeMatches_rows in Hshape as [Hlen Hrows].
  apply list_eq. intros i. rewrite list_lookup_fmap.
  destruct (values !! i) as [cellRow|] eqn:Hi.
  - pose proof (lookup_lt_Some _ _ _ Hi) as Hlt.
    rewrite lookup_seq_lt by lia. simpl. f_equal.
    apply list_eq. intros j. rewrite list_lookup_fmap.
    pose proof (Hrows i cellRow Hi) as Hwidth.
    destruct (cellRow !! j) as [cell|] eqn:Hj.
    + pose proof (lookup_lt_Some _ _ _ Hj) as Hltj.
      rewrite lookup_seq_lt by lia. simpl. f_equal.
      unfold cellAt. simpl. rewrite lookup_writeRows.
      unfold writtenInRows, writtenInRow.
      rewrite decide_True by lia.
      replace (row (topLeft r) + i - row (topLeft r)) with i by lia.
      rewrite Hi. simpl. rewrite decide_True by lia.
      replace (column (topLeft r) + j - column (topLeft r)) with j by lia.
      by rewrite Hj.
    + apply lookup_ge_None in Hj.
      by rewrite lookup_seq_ge by lia.
  - apply lookup_ge_None in Hi.
    by rewrite lookup_seq_ge by lia.
Qed.

Lemma write_then_read_witness :
  shapeMatches {| topLeft := {| row := 0; column := 0 |};
                    bottomRight := {| row := 1; column := 1 |} |}
      [[{| value := Number 1; format := None |};
        {| value := Number 2; format := None |}];
       [{| value := Number 3; format := None |};
        {| value := Text "x"; format := Some "currency" |}]] = true
  ∧ ∃ e' delta,
      writeRange {| topLeft := {| row := 0; column := 0 |};
                    bottomRight := {| row := 1; column := 1 |} |}
        [[{| value := Number 1; format := None |};
          {| value := Number 2; format := None |}];
         [{| value := Number 3; format := None |};
          {| value := Text "x"; format := Some "currency" |}]]
        {| sheet := {| cells := ∅; rowCount := 3; columnCount := 3 |};
           nextSequence := 0 |}
      = inr (e', delta)
      ∧ readRange {| topLeft := {| row := 0; column := 0 |};
                     bottomRight := {| row := 1; column := 1 |} |} (sheet e')
        = inr [[{| value := Number 1; format := None |};
                {| value := Number 2; format := None |}];
               [{| value := Number 3; format := None |};
                {| value := Text "x"; format := Some "currency" |}]].
Proof.
  split; [reflexivity|].
  apply write_then_read; reflexivity.
Defined.

End EngineFacts.

(** * Further facts *)

(** ** More on column names *)

Section ColumnNameMore.

Import ColumnName Resolver.
Local Open Scope Z_scope.

(** X1. Every non-empty string of at most eleven capital letters is the
    name of exactly one column index, and that index is below 2^53, where the
    loop's numbers are exact. *)
Theorem column_names_onto_letters (s : string) :
  s ≠ "" → allChars isUpper s = true → (String.length s ≤ 11)%nat →
  ∃ index, 0 ≤ index < 2 ^ 53 ∧ getExcelColumnName index = s
           ∧ ∀ j, 0 ≤ j < 2 ^ 53 → getExcelColumnName j = s → j = index.
Proof.
  intros Hne Hup Hlen.
  destruct (getExcelColumnName_decodeColumnName s (conj Hne Hup))
    as (index & Hpos & _ & Hname).
  exists index. split_and!; [done | | done |].
  - pose proof (proj1 (getExcelColumnName_length_iff (String.length s) index
                         ltac:(lia)) ltac:(by rewrite Hname)) as [_ Hup'].
    pose proof (firstIndexOfLength_mono (S (String.length s)) 12 ltac:(lia))
      as Hmono.
    assert (firstIndexOfLength 12 = 3817158266467286) as Htwelve
      by (by vm_compute).
    lia.
  - intros j Hj Hs. apply getExcelColumnName_inj; [lia | done | congruence].
Qed.

Lemma column_names_onto_letters_witness :
  "XFD" ≠ "" ∧ allChars isUpper "XFD" = true ∧ (String.length "XFD" ≤ 11)%nat
  ∧ ∃ index, 0 ≤ index < 2 ^ 53 ∧ getExcelColumnName index = "XFD"
           ∧ ∀ j, 0 ≤ j < 2 ^ 53 → getExcelColumnName j = "XFD" → j = index.
Proof.
  split; [discriminate|]. split; [reflexivity|]. split; [simpl; lia|].
  apply column_names_onto_letters; [discriminate | reflexivity | simpl; lia].
Defined.

Lemma firstIndexOfLength_next k :
  firstIndexOfLength (S k) = firstIndexOfLength k + 26 ^ Z.of_nat k.
Proof.
  induction k as [|k IH]; [done|].
  change (firstIndexOfLength (S (S k)))
    with (26 * (firstIndexOfLength (S k) + 1)).
  rewrite IH at 1.
  change (firstIndexOfLength (S k)) with (26 * (firstIndexOfLength k + 1)).
  rewrite Nat2Z.inj_succ, Z.pow_succ_r by lia. lia.
Qed.

(** X2. Among the indices below 2^53, where the loop's numbers are exact,
    those with a name of k letters are the ones in the block of 26^k indices
    that starts at 26 + 26² + ... + 26^(k-1). *)
Theorem column_name_length_count (k : nat) (index : Z) :
  0 ≤ index < 2 ^ 53 →
  (String.length (getExcelColumnName index) = k
   ↔ firstIndexOfLength k ≤ index < firstIndexOfLength k + 26 ^ Z.of_nat k)
  ∧ ((1 ≤ k)%nat → 25 * firstIndexOfLength k = 26 ^ Z.of_nat k - 26).
Proof.
  intros [Hpos Hbound]. split.
  - rewrite <- firstIndexOfLength_next.
    apply getExcelColumnName_length_iff. lia.
  - apply firstIndexOfLength_closed.
Qed.

Lemma column_name_length_count_witness :
  0 ≤ 16383 < 2 ^ 53
  ∧ (String.length (getExcelColumnName 16383) = 3%nat
   ↔ firstIndexOfLength 3 ≤ 16383 < firstIndexOfLength 3 + 26 ^ Z.of_nat 3).
Proof.
  split; [lia|]. apply (column_name_length_count 3 16383). lia.
Defined.

Lemma string_compare_refl s : String.compare s s = Eq.
Proof.
  induction s as [|c s IH]; [done|]. simpl.
  unfold Ascii.compare. by rewrite N.compare_refl.
Qed.

(** Comparing two strings of one length, each followed by more. *)
Lemma string_compare_app s t a b :
  String.length s = String.length t →
  String.compare (s +:+ a) (t +:+ b)
  = match String.compare s t with
    | Eq => String.compare a b
    | c => c
    end.
Proof.
  revert t. induction s as [|c s IH]; intros [|d t] Hlen; try done.
  rewrite !string_app_cons. simpl.
  destruct (Ascii.compare c d); [|done..].
  apply IH. simpl in Hlen. lia.
Qed.

Lemma letter_compare (r r' : Z) :
  0 ≤ r < r' → r' < 26 →
  String.compare (String (fromCharCode (65 + r)) "")
                 (String (fromCharCode (65 + r')) "") = Lt.
Proof.
  intros Hr Hr'. simpl. unfold Ascii.compare, fromCharCode.
  rewrite !N_ascii_embedding by lia.
  assert (Z.to_N (65 + r) < Z.to_N (65 + r'))%N as Hlt by lia.
  apply N.compare_lt_iff in Hlt. by rewrite Hlt.
Qed.

Lemma getExcelColumnName_shortlex j :
  ∀ i, -1 ≤ i < j →
    ColumnOrder.shortlexLt (getExcelColumnName i) (getExcelColumnName j).
Proof.
  induction j as [j Hneg | j Hpos IH] using loop_ind; intros i Hi; [lia|].
  unfold ColumnOrder.shortlexLt.
  destruct (Z_le_gt_dec 0 i) as [Hi0|Hi0].
  - rewrite (getExcelColumnName_snoc i), (getExcelColumnName_snoc j) by done.
    rewrite !string_app_length. simpl String.length.
    pose proof (Z.div_mod i 26). pose proof (Z.mod_pos_bound i 26).
    pose proof (Z.div_mod j 26). pose proof (Z.mod_pos_bound j 26).
    assert (0 ≤ i / 26) by (apply Z.div_pos; lia).
    destruct (Z_lt_le_dec (i / 26) (j / 26)) as [Hdiv|Hdiv].
    + destruct (IH (i / 26 - 1) ltac:(lia)) as [Hlen | [Hlen Hcmp]].
      * left. lia.
      * right. split; [lia|]. by rewrite string_compare_app, Hcmp.
    + assert (i / 26 = j / 26) as Heq by lia. rewrite Heq.
      right. split; [done|].
      rewrite string_compare_app, string_compare_refl by done.
      apply letter_compare; lia.
  - left. rewrite getExcelColumnName_neg by lia.
    rewrite getExcelColumnName_length by done. simpl. lia.
Qed.

(** X3. Below 2^53, where the loop's numbers are exact, column names come
    in index order when compared by length first and by code units among
    names of one length: a smaller index never has a longer name, nor a later
    name of the same length. *)
Theorem column_names_in_order (i j : Z) :
  0 ≤ i → i < j → j < 2 ^ 53 →
  ColumnOrder.shortlexLt (getExcelColumnName i) (getExcelColumnName j).
Proof. intros Hi Hij Hj. apply getExcelColumnName_shortlex. lia. Qed.

Lemma column_names_in_order_witness :
  0 ≤ 25 ∧ 25 < 26 ∧ 26 < 2 ^ 53
  ∧ ColumnOrder.shortlexLt (getExcelColumnName 25) (getExcelColumnName 26).
Proof.
  split; [lia|]. split; [lia|]. split; [lia|].
  apply column_names_in_order; lia.
Defined.

End ColumnNameMore.

(** ** More on the viewer *)

Section ViewerMore.

Import ColumnName Viewer.

Lemma columnDefinitions_lookup metadata (j : nat) col :
  columnDefinitions metadata !! j = Some col →
  (j < Z.to_nat (columns metadata))%nat
  ∧ key col = numberToString (Z.of_nat j)
  ∧ name col = getExcelColumnName (Z.of_nat j).
Proof.
  unfold columnDefinitions, arrayFromLength. rewrite list_lookup_fmap.
  destruct (seq 0 (Z.to_nat (columns metadata)) !! j) as [i|] eqn:Hj; [|done].
  apply lookup_seq in Hj as [-> Hlt]. simpl. by intros [= <-].
Qed.

(** X4. The grid shows each cell in its place: the column at position j has
    the key under which every row object holds the row's cell number j; the
    keys of different columns differ, and no column reads the [id]. *)
Theorem viewer_cells_under_column_keys (data : list (list jsval))
    (metadata : Metadata) (st : ViewerState) (j : nat) (col : Column) :
  gridColumns (viewerEffect (Some data) (Some metadata) st) !! j = Some col →
  name col = getExcelColumnName (Z.of_nat j)
  ∧ key col ≠ "id"
  ∧ (∀ (j' : nat) col',
       gridColumns (viewerEffect (Some data) (Some metadata) st) !! j'
         = Some col' →
       key col' = key col → j' = j)
  ∧ ∀ (r : nat) row, data !! r = Some row →
      ∃ obj, gridRows (viewerEffect (Some data) (Some metadata) st) !! r
             = Some obj
        ∧ obj !! key col = row !! j.
Proof.
  simpl. intros (Hlt & Hkey & Hname)%columnDefinitions_lookup.
  assert (numberToString (Z.of_nat j) ≠ "id") as Hid.
  { intros Heq.
    pose proof (numberToString_digits (Z.of_nat j) ltac:(lia)) as Hd.
    by rewrite Heq in Hd. }
  split_and!; [done | congruence | |].
  - intros j' col' (_ & Hkey' & _)%columnDefinitions_lookup Heq.
    apply numberToString_of_nat_inj. congruence.
  - intros r row Hrow. eexists. split.
    + by rewrite formatRows_lookup, Hrow.
    + rewrite Hkey. unfold spread.
      destruct (row !! j) as [cell|] eqn:Hj.
      * apply lookup_union_Some_l. by rewrite arrayProps_lookup.
      * rewrite lookup_union_r by (by rewrite arrayProps_lookup).
        by apply lookup_singleton_ne.
Qed.

Lemma viewer_cells_under_column_keys_witness :
  gridColumns (viewerEffect (Some [[JStr "a"; JNum 7]])
                 (Some {| columns := 2 |}) initialViewer) !! 1%nat
  = Some {| key := "1"; name := "B"; resizable := true; sortable := true;
            width := 120 |}
  ∧ ∃ obj, gridRows (viewerEffect (Some [[JStr "a"; JNum 7]])
                       (Some {| columns := 2 |}) initialViewer) !! 0%nat
           = Some obj
      ∧ obj !! "1" = Some (JNum 7).
Proof.
  assert (gridColumns (viewerEffect (Some [[JStr "a"; JNum 7]])
                         (Some {| columns := 2 |}) initialViewer) !! 1%nat
          = Some {| key := "1"; name := "B"; resizable := true;
                    sortable := true; width := 120 |}) as Hcol
    by (vm_compute; reflexivity).
  split; [exact Hcol|].
  destruct (viewer_cells_under_column_keys _ _ _ _ _ Hcol) as (_ & _ & _ & Hrows).
  exact (Hrows 0%nat [JStr "a"; JNum 7] eq_refl).
Defined.

End ViewerMore.

(** ** More on the upload component *)

Section UploadMore.

Import Upload UploadRuns.

Lemma act_selectionSupported st a :
  selectionSupported st → selectionSupported (act st a).1.
Proof.
  intros Hst. unfold selectionSupported.
  destruct a as [[f|]|[f|]]; simpl; try done.
  - by destruct (isFileSupported f) eqn:Hf.
  - by destruct (isFileSupported f) eqn:Hf.
Qed.

Lemma act_alerts st a :
  length (act st a).2 = if turnedDown (offered a) then 1 else 0.
Proof.
  destruct a as [[f|]|[f|]]; simpl; try done; by destruct (isFileSupported f).
Qed.

(** X5. Whatever files are chosen and dropped, in whatever order, the
    selection is empty or a supported file; so the file [handleUpload] hands
    to [onFileUpload] is always a supported one. *)
Theorem selection_always_supported (st : UploadState) (actions : list action) :
  selectionSupported st →
  selectionSupported (acts st actions).1
  ∧ ∀ f, handleUpload (acts st actions).1 = Some f → isFileSupported f = true.
Proof.
  intros Hst.
  assert (selectionSupported (acts st actions).1) as Hend.
  { revert st Hst. induction actions as [|a actions IH]; intros st Hst; [done|].
    simpl. pose proof (act_selectionSupported st a Hst) as Hstep.
    destruct (act st a) as [st1 alerts1]. specialize (IH st1 Hstep).
    by destruct (acts st1 actions). }
  split; [done|]. intros f Hf. unfold handleUpload in Hf.
  unfold selectionSupported in Hend. by rewrite Hf in Hend.
Qed.

Lemma selection_always_supported_witness :
  selectionSupported initialUpload
  ∧ selectionSupported
      (acts initialUpload
         [Drop (Some {| name := "q1.csv"; type := "" |});
          Drop (Some {| name := "notes.txt"; type := "text/plain" |});
          Change None;
          Change (Some {| name := "Q2.XLSX"; type := "" |})]).1.
Proof.
  assert (selectionSupported initialUpload) as Hst by exact I.
  split; [exact Hst|].
  exact (proj1 (selection_always_supported initialUpload _ Hst)).
Defined.

(** X6. The component alerts once for every file it turns down or finds
    missing, and never for a file it takes. *)
Theorem one_alert_per_refusal (st : UploadState) (actions : list action) :
  length (acts st actions).2
  = length (filter (λ a, turnedDown (offered a) = true) actions).
Proof.
  revert st. induction actions as [|a actions IH]; intros st; [done|].
  simpl. pose proof (act_alerts st a) as Hstep.
  destruct (act st a) as [st1 alerts1]. specialize (IH st1).
  destruct (acts st1 actions) as [st2 alerts2]. simpl in *.
  rewrite length_app, Hstep, IH, filter_cons.
  destruct (turnedDown (offered a)); by case_decide.
Qed.

(** X7. A file whose lower-cased name ends in one of the extensions the
    file chooser advertises (the values of [supportedFormats], which make up
    the [accept] attribute) is supported, whatever its type. *)
Theorem advertised_extensions_accepted (mediaType ext stem : string)
    (file : File) :
  (mediaType, ext) ∈ supportedFormats →
  toLowerCase (name file) = stem +:+ ext →
  isFileSupported file = true.
Proof.
  intros Hin Hname.
  assert (Forall (λ kv : string * string,
            ∃ e, kv.2 = "." +:+ e ∧ e ∈ supportedExtensions) supportedFormats)
    as Hall.
  { repeat (constructor; [eexists; split; [reflexivity | repeat constructor]|]).
    constructor. }
  destruct (proj1 (Forall_forall _ _) Hall _ Hin) as (e & He & Hext).
  simpl in He. subst ext.
  apply isFileSupported_iff. right. right. exists e. split; [done|].
  right. by exists stem.
Qed.

Lemma advertised_extensions_accepted_witness :
  ("text/tab-separated-values", ".tsv") ∈ supportedFormats
  ∧ toLowerCase "Export.TSV" = "export" +:+ ".tsv"
  ∧ isFileSupported {| name := "Export.TSV"; type := "application/octet-stream" |}
    = true.
Proof.
  assert (("text/tab-separated-values", ".tsv") ∈ supportedFormats) as Hin
    by (repeat constructor).
  assert (toLowerCase "Export.TSV" = "export" +:+ ".tsv") as Hname
    by reflexivity.
  split; [exact Hin|]. split; [exact Hname|].
  exact (advertised_extensions_accepted _ _ _
           {| name := "Export.TSV"; type := "application/octet-stream" |}
           Hin Hname).
Defined.



(** X9. When a file is turned down or missing, a drop leaves the selection
    (and so the upload button) as it was, while the chooser's change handler
    clears the selection and disables the button; each shows one alert that
    lists the advertised extensions. *)
Theorem refusal_on_drop_and_on_change (file : option File) (st : UploadState)
    (loading : bool) :
  turnedDown file = true →
  (handleDrop file st).1 = st
  ∧ uploadDisabled (handleDrop file st).1 loading = uploadDisabled st loading
  ∧ selectedFile (handleFileChange file st).1 = None
  ∧ uploadDisabled (handleFileChange file st).1 loading = true
  ∧ (handleDrop file st).2
    = [Alert "Please drop a valid spreadsheet file (.xlsx,.xls,.ods,.csv,.tsv,.xltx,.xltm,.xlsm)"]
  ∧ (handleFileChange file st).2
    = [Alert "Please select a valid spreadsheet file (.xlsx,.xls,.ods,.csv,.tsv,.xltx,.xltm,.xlsm)"].
Proof.
  intros Hdown. unfold handleDrop, handleFileChange.
  destruct file as [f|]; simpl in Hdown.
  - apply negb_true_iff in Hdown. rewrite Hdown. by split_and!.
  - by split_and!.
Qed.

Lemma refusal_on_drop_and_on_change_witness :
  turnedDown (Some {| name := "notes.txt"; type := "text/plain" |}) = true
  ∧ (handleDrop (Some {| name := "notes.txt"; type := "text/plain" |})
       {| selectedFile := Some {| name := "q1.csv"; type := "text/csv" |} |}).1
    = {| selectedFile := Some {| name := "q1.csv"; type := "text/csv" |} |}.
Proof.
  assert (turnedDown (Some {| name := "notes.txt"; type := "text/plain" |})
          = true) as Hdown by reflexivity.
  split; [exact Hdown|].
  exact (proj1 (refusal_on_drop_and_on_change _
                  {| selectedFile :=
                       Some {| name := "q1.csv"; type := "text/csv" |} |}
                  false Hdown)).
Defined.

End UploadMore.

(** ** The chat panel *)

Section ChatFacts.

Import Client Chat.

Lemma trimStart_allChars s :
  allChars isWhiteSpace (trimStart s) = allChars isWhiteSpace s.
Proof.
  induction s as [|c s IH]; [done|]. simpl.
  destruct (isWhiteSpace c) eqn:Hc; [done|]. simpl. by rewrite Hc.
Qed.

Lemma trimEnd_empty s :
  trimEnd s = "" ↔ allChars isWhiteSpace s = true.
Proof.
  induction s as [|c s IH]; [done|]. simpl.
  destruct (trimEnd s) as [|d kept].
  - rewrite (proj1 IH eq_refl), andb_true_r.
    by destruct (isWhiteSpace c).
  - split; [done|]. intros [_ Hs]%andb_true_iff.
    by apply IH in Hs.
Qed.

(** Trimming leaves nothing exactly of the strings made of white space. *)
Lemma trim_empty s : trim s = "" ↔ allChars isWhiteSpace s = true.
Proof. unfold trim. by rewrite trimEnd_empty, trimStart_allChars. Qed.

(** X10. The panel passes a message on exactly when the input holds some
    character that is not white space; it passes the input as typed, not
    trimmed, and empties the field.  A blank input is kept and changes
    nothing in the application either. *)
Theorem blank_input_is_not_sent (chat : ChatState) (app : AppState) :
  ((handleSubmit chat).2 = None
   ↔ allChars isWhiteSpace (input chat) = true)
  ∧ (∀ message, (handleSubmit chat).2 = Some message →
       message = input chat ∧ input (handleSubmit chat).1 = "")
  ∧ ((handleSubmit chat).2 = None →
       (handleSubmit chat).1 = chat ∧ submit chat app = (chat, app, [])).
Proof.
  unfold submit, handleSubmit. rewrite <- trim_empty.
  case_bool_decide as Hblank; simpl.
  - split_and!; [done | done | by destruct chat].
  - split_and!; [done | by intros message [= <-] | done].
Qed.

(** X11. A message submitted while the socket is absent or not open is
    lost: the field is emptied although nothing is sent and the history
    stays as it was; only the error is set. *)
Theorem message_lost_without_open_socket (chat : ChatState) (app : AppState) :
  allChars isWhiteSpace (input chat) = false →
  socketOpen app = false →
  submit chat app
  = ({| input := "" |},
     setError (Some "Connection lost. Please refresh the page.") app, [])
  ∧ messages (submit chat app).1.2 = messages app.
Proof.
  intros Hblank Hclosed. unfold submit, handleSubmit.
  assert (trim (input chat) ≠ "") as Htrim.
  { rewrite trim_empty. congruence. }
  rewrite bool_decide_false by done. simpl.
  unfold sendMessage. by rewrite Hclosed.
Qed.

Lemma message_lost_without_open_socket_witness :
  allChars isWhiteSpace (input {| input := " sum column B " |}) = false
  ∧ socketOpen initialApp = false
  ∧ submit {| input := " sum column B " |} initialApp
    = ({| input := "" |},
       setError (Some "Connection lost. Please refresh the page.") initialApp,
       []).
Proof.
  assert (allChars isWhiteSpace (input {| input := " sum column B " |}) = false)
    as Hblank by reflexivity.
  assert (socketOpen initialApp = false) as Hclosed by reflexivity.
  split; [exact Hblank|]. split; [exact Hclosed|].
  exact (proj1 (message_lost_without_open_socket _ _ Hblank Hclosed)).
Defined.

End ChatFacts.

(** ** More on the client *)

Section ClientMore.

Import Client Chat ClientRuns.

(** A property of the state that every step of a kind keeps is kept along
    runs of steps of that kind. *)
Lemma run_keeps {A} (f : AppState → A) (quiet : event → bool) :
  (∀ st ev, quiet ev = true → f (step st ev).1 = f st) →
  ∀ st evs, Forall (λ ev, quiet ev = true) evs → f (run st evs).1 = f st.
Proof.
  intros Hstep st evs. revert st.
  induction evs as [|ev evs IH]; intros st Hall; [done|].
  apply Forall_cons in Hall as [Hev Hall]. simpl.
  specialize (Hstep st ev Hev).
  destruct (step st ev) as [st1 reqs1]. specialize (IH st1 Hall).
  destruct (run st1 evs) as [st2 reqs2]. simpl in *. congruence.
Qed.

Lemma step_history st ev :
  ∃ added,
    messages (step st ev).1 = messages st ++ added
    ∧ filter isSocketSend (step st ev).2 = sendOf <$> filter isUserTurn added
    ∧ Forall (λ msg, role msg = "user" ∨ role msg = "assistant") added.
Proof.
  destruct ev as [file o| |o|r|msg| |message]; simpl.
  - exists []. rewrite app_nil_r. by destruct o as [| |[body|]].
  - exists []. rewrite app_nil_r. unfold attachEffect.
    by destruct (noClientId st).
  - exists []. rewrite app_nil_r. by destruct o as [| |[body|]].
  - exists []. rewrite app_nil_r. unfold socketState. by destruct (socket st).
  - unfold onmessage. destruct (isExcelUpdate msg).
    + exists []. by rewrite app_nil_r.
    + eexists [_]. split_and!; [done | | by repeat constructor].
      by destruct (truthy _).
  - exists []. by rewrite app_nil_r.
  - unfold sendMessage. destruct (socketOpen st); simpl.
    + eexists [_]. split_and!; [done | done | by repeat constructor].
    + exists []. by rewrite app_nil_r.
Qed.

(** X12. The history only grows: along any run the earlier turns stay in
    place, every turn added is the user's or the assistant's, and the
    messages sent over the socket are, in order, exactly the user turns
    added. *)
Theorem history_grows_with_sends (st : AppState) (evs : list event) :
  ∃ added,
    messages (run st evs).1 = messages st ++ added
    ∧ filter isSocketSend (run st evs).2 = sendOf <$> filter isUserTurn added
    ∧ Forall (λ msg, role msg = "user" ∨ role msg = "assistant") added.
Proof.
  revert st. induction evs as [|ev evs IH]; intros st.
  - exists []. by rewrite app_nil_r.
  - simpl. destruct (step_history st ev) as (added1 & Hm1 & Hs1 & Hr1).
    destruct (step st ev) as [st1 reqs1].
    destruct (IH st1) as (added2 & Hm2 & Hs2 & Hr2).
    destruct (run st1 evs) as [st2 reqs2]. simpl in *.
    exists (added1 ++ added2). split_and!.
    + by rewrite Hm2, Hm1, app_assoc.
    + by rewrite !filter_app, fmap_app, Hs1, Hs2.
    + by apply Forall_app.
Qed.

Lemma targets_same_session st st' r :
  clientId st' = clientId st → targets st r → targets st' r.
Proof.
  intros Hid. unfold targets, excelAddress, socketAddress, clientIdText.
  by rewrite Hid.
Qed.

Lemma step_targets st ev : Forall (targets st) (step st ev).2.
Proof.
  destruct ev as [file o| |o|r|msg| |message]; simpl.
  - by repeat constructor.
  - unfold attachEffect. destruct (noClientId st); by repeat constructor.
  - constructor.
  - constructor.
  - unfold onmessage. destruct (isExcelUpdate msg); [constructor|].
    destruct (truthy _); by repeat constructor.
  - constructor.
  - unfold sendMessage. destruct (negb _); by repeat constructor.
Qed.

(** X13. As long as no upload is answered, every request of a run goes to
    the state's own session: the grid is fetched from its address and the
    socket opened at its address. *)
Theorem requests_target_session (st : AppState) (evs : list event) :
  Forall (λ ev, uploadAnswered ev = false) evs →
  Forall (targets st) (run st evs).2.
Proof.
  revert st. induction evs as [|ev evs IH]; intros st Hall; [constructor|].
  apply Forall_cons in Hall as [Hev Hall]. simpl.
  pose proof (step_targets st ev) as Hreqs.
  pose proof (step_clientId st ev) as Hid.
  destruct (step st ev) as [st1 reqs1]. specialize (IH st1 Hall).
  destruct (run st1 evs) as [st2 reqs2]. simpl in *.
  apply Forall_app. split; [done|].
  assert (clientId st1 = clientId st) as Hsame.
  { destruct (decide (clientId st1 = clientId st)) as [|Hne]; [done|].
    destruct (Hid Hne) as (file & body & -> & _). done. }
  eapply Forall_impl; [exact IH|]. intros r.
  by apply targets_same_session.
Qed.

Lemma requests_target_session_witness :
  Forall (λ ev, uploadAnswered ev = false)
    [Attach; SocketState OPEN; SendMessage "hello"; SocketError]
  ∧ Forall (targets (setClientId (Some "c1") initialApp))
      (run (setClientId (Some "c1") initialApp)
         [Attach; SocketState OPEN; SendMessage "hello"; SocketError]).2.
Proof.
  assert (Forall (λ ev, uploadAnswered ev = false)
            [Attach; SocketState OPEN; SendMessage "hello"; SocketError])
    as Hall by (repeat constructor).
  split; [exact Hall|].
  exact (requests_target_session (setClientId (Some "c1") initialApp) _ Hall).
Defined.

(** X14. An upload answered with a non-empty identifier takes the client to
    the main screen with the error cleared and loading over; the effect then
    opens the socket and fetches the grid at that identifier's addresses;
    and until the socket is open a chat message is refused. *)
Theorem upload_then_attach (file : Upload.File) (id : string) (st : AppState) :
  id ≠ "" →
  clientId (handleFileUpload file
              (UploadBody (Some {| client_id := Some id |})) st).1 = Some id
  ∧ render (handleFileUpload file
              (UploadBody (Some {| client_id := Some id |})) st).1
    = MainScreen (excelData st) (messages st)
  ∧ error (handleFileUpload file
             (UploadBody (Some {| client_id := Some id |})) st).1 = None
  ∧ loading (handleFileUpload file
               (UploadBody (Some {| client_id := Some id |})) st).1 = false
  ∧ (attachEffect (handleFileUpload file
                     (UploadBody (Some {| client_id := Some id |})) st).1).2
    = [OpenSocket ("ws://localhost:8000/ws/" +:+ id);
       GetExcel ("http://localhost:8000/excel/" +:+ id)]
  ∧ (∀ message,
       (sendMessage message
          (attachEffect (handleFileUpload file
             (UploadBody (Some {| client_id := Some id |})) st).1).1).2 = [])
  ∧ (∀ message,
       (sendMessage message
          (socketState OPEN
             (attachEffect (handleFileUpload file
                (UploadBody (Some {| client_id := Some id |})) st).1).1)).2
       = [SocketSend (JObj [("message", JStr message)])]).
Proof.
  intros Hid. simpl.
  unfold render, attachEffect, noClientId. simpl.
  rewrite bool_decide_false by done. by split_and!.
Qed.

Lemma upload_then_attach_witness :
  "c1" ≠ ""
  ∧ render (handleFileUpload {| Upload.name := "book.xlsx"; Upload.type := "" |}
              (UploadBody (Some {| client_id := Some "c1" |})) initialApp).1
    = MainScreen None [].
Proof.
  assert ("c1" ≠ "") as Hid by discriminate.
  split; [exact Hid|].
  exact (proj1 (proj2 (upload_then_attach
                         {| Upload.name := "book.xlsx"; Upload.type := "" |}
                         "c1" initialApp Hid))).
Defined.

(** X15. An upload whose response is ok but carries no identifier (the field
    is missing or empty) fails silently: the client is on the upload screen
    with no error shown and loading over, and the effect opens nothing. *)
Theorem upload_without_id_is_silent (file : Upload.File)
    (body : UploadResponse) (st : AppState) :
  client_id body = None ∨ client_id body = Some "" →
  render (handleFileUpload file (UploadBody (Some body)) st).1
  = UploadScreen false None
  ∧ attachEffect (handleFileUpload file (UploadBody (Some body)) st).1
    = ((handleFileUpload file (UploadBody (Some body)) st).1, []).
Proof.
  intros Hid. simpl. unfold render, attachEffect, noClientId. simpl.
  by destruct Hid as [-> | ->].
Qed.

Lemma upload_without_id_is_silent_witness :
  (client_id {| client_id := None |} = None
   ∨ client_id {| client_id := None |} = Some "")
  ∧ render (handleFileUpload {| Upload.name := "book.xlsx"; Upload.type := "" |}
              (UploadBody (Some {| client_id := None |})) initialApp).1
    = UploadScreen false None.
Proof.
  assert (client_id {| client_id := None |} = None
          ∨ client_id {| client_id := None |} = Some "") as Hid
    by (left; reflexivity).
  split; [exact Hid|].
  exact (proj1 (upload_without_id_is_silent
                  {| Upload.name := "book.xlsx"; Upload.type := "" |}
                  _ initialApp Hid)).
Defined.

(** X16. Once the client is on the main screen its errors are not shown: a
    socket error, a chat message refused for want of an open socket and a
    failed fetch of the grid each leave what is rendered exactly as it
    was. *)
Theorem main_screen_hides_errors (st : AppState) (message : string)
    (o : fetchOutcome) :
  noClientId st = false →
  render (onerror st) = render st
  ∧ (socketOpen st = false → render (sendMessage message st).1 = render st)
  ∧ (fetched o = false → render (fetchExcelData_done o st) = render st).
Proof.
  intros Hid. unfold render, onerror, sendMessage, noClientId in *. simpl.
  split_and!.
  - by rewrite Hid.
  - intros ->. simpl. by rewrite Hid.
  - intros Ho. destruct o as [| |[body|]]; try done; simpl; by rewrite Hid.
Qed.

Lemma main_screen_hides_errors_witness :
  noClientId (setClientId (Some "c1") initialApp) = false
  ∧ render (onerror (setClientId (Some "c1") initialApp))
    = render (setClientId (Some "c1") initialApp).
Proof.
  assert (noClientId (setClientId (Some "c1") initialApp) = false) as Hid
    by reflexivity.
  split; [exact Hid|].
  exact (proj1 (main_screen_hides_errors _ "hello" FetchFailed Hid)).
Defined.

Lemma step_grid st ev :
  bringsGrid ev = false → excelData (step st ev).1 = excelData st.
Proof.
  destruct ev as [file o| |o|r|msg| |message]; simpl.
  - by destruct o as [| |[body|]].
  - unfold attachEffect. by destruct (noClientId st).
  - by destruct o as [| |[body|]].
  - unfold socketState. by destruct (socket st).
  - unfold onmessage. by intros ->.
  - done.
  - unfold sendMessage. by destruct (negb _).
Qed.

(** X17. The grid state changes only when the server hands over a grid (a
    fetched body or an update message): along any run of other events, such
    as uploads, chat messages, replies, socket errors and failed fetches, it
    stays as it was. *)
Theorem grid_changes_only_from_server (st : AppState) (evs : list event) :
  Forall (λ ev, bringsGrid ev = false) evs →
  excelData (run st evs).1 = excelData st.
Proof.
  intros Hall.
  apply (run_keeps excelData (λ ev, negb (bringsGrid ev))).
  - intros st0 ev Hev. apply step_grid. by apply negb_true_iff.
  - eapply Forall_impl; [exact Hall|]. intros ev ->. done.
Qed.

Lemma grid_changes_only_from_server_witness :
  Forall (λ ev, bringsGrid ev = false)
    [SendMessage "hello"; ExcelFetched FetchNotOk; SocketError]
  ∧ excelData (run initialApp
                 [SendMessage "hello"; ExcelFetched FetchNotOk; SocketError]).1
    = excelData initialApp.
Proof.
  assert (Forall (λ ev, bringsGrid ev = false)
            [SendMessage "hello"; ExcelFetched FetchNotOk; SocketError])
    as Hall by (repeat constructor).
  split; [exact Hall|].
  exact (grid_changes_only_from_server initialApp _ Hall).
Defined.

End ClientMore.

(** ** The upload button and the client together *)

Section UploadFlowFacts.

Import Upload UploadRuns Client UploadFlow.

Lemma acts_initial_supported actions :
  selectionSupported (acts initialUpload actions).1.
Proof.
  assert (∀ st, selectionSupported st → selectionSupported (acts st actions).1)
    as Hall.
  { induction actions as [|a actions IH]; intros st Hst; [done|].
    simpl. pose proof (act_selectionSupported st a Hst) as Hstep.
    destruct (act st a) as [st1 alerts1]. specialize (IH st1 Hstep).
    by destruct (acts st1 actions). }
  by apply Hall.
Qed.

(** X18. Whatever was chosen and dropped before, a click on the upload
    button posts nothing but a supported file, and posts nothing at all
    while an upload is in flight: from the start of an upload until its
    answer the button is disabled. *)
Theorem only_supported_files_are_posted (actions : list action)
    (o : uploadOutcome) (app : AppState) (file : File) :
  Forall postsSupported
    (clickUpload (acts initialUpload actions).1 o app).2
  ∧ (loading app = true →
     clickUpload (acts initialUpload actions).1 o app = (app, []))
  ∧ uploadDisabled (acts initialUpload actions).1
      (loading (handleFileUpload_start file app).1) = true.
Proof.
  pose proof (acts_initial_supported actions) as Hsup.
  unfold clickUpload, uploadDisabled, handleUpload, selectionSupported in *.
  destruct (selectedFile (acts initialUpload actions).1) as [f|] eqn:Hsel.
  - rewrite bool_decide_true by (by eexists). simpl. split_and!.
    + destruct (loading app); [constructor|]. by repeat constructor.
    + by intros ->.
    + done.
  - rewrite bool_decide_false by (by intros [? ?]). simpl.
    split_and!; [constructor | done | done].
Qed.

End UploadFlowFacts.
